(** * provisioner.py: orchestration of SAML provider, stack and role setup

    A shallow embedding of [src/provisioner.py] and the properties of its
    parameter binding ([process_params]), of the orchestrator ([main]), of
    the manifest serialisation ([json.dumps(..., sort_keys=True, indent=4)])
    and of the command line declared under [__main__]. *)

From Stdlib Require Import ZArith String Ascii.
From stdpp Require Import gmap strings list fin_maps sorting pretty.

#[local] Set Warnings "-register-all,-clear-no-such-hyp".

(** ** Python values

    The values the script handles: what [json.load] returns, what the
    collaborators return, what [json.dumps] writes.  A [dict] with [str]
    keys is a finite map.  A [str] is held as its UTF-8 bytes (a lone
    surrogate as the three bytes of its code point), so that every [str]
    has an image, equal strings have equal images, one [str] is part of
    another when its bytes are part of the other's, and the order of the
    bytes is the order of the code points.  A float that is a number is
    identified by its [repr], which is all the script ever does with one
    (it writes it out); the three floats that are not numbers stand
    apart. *)

Inductive pyfloat : Type :=
| Finite (repr : string)
| NaN
| Infinity
| NegInfinity.

Inductive value : Type :=
| VNone
| VBool (b : bool)
| VInt (z : Z)
| VFloat (f : pyfloat)
| VStr (s : string)
| VList (l : list value)
| VDict (d : gmap string value).

(** ** Exceptions

    Modelled from the spec: [provisioner.exceptions] is not part of the
    sources at hand; its four classes are the four distinct recoverable or
    fatal error kinds of spec section 7, unrelated by subclassing.  The
    built-in classes are the ones the script's own statements can raise.
    Any other class a collaborator raises (the spec's [InvalidTemplate],
    [ProviderNotFound], a transport error) is an [OtherError]. *)

Inductive exn_class : Type :=
| SAMLProviderExistsError
| NoUpdateToPerformError
| StackExistsError
| RoleNotFoundError
| KeyError
| TypeError
| UnboundLocalError
| SystemExit
| OtherError (name : string).

(** An exception instance: its class and its argument ([KeyError] carries
    the missing key; the text of the other built-in messages is not
    tracked and left empty). *)
Record exn : Type := Exn { exn_cls : exn_class; exn_arg : string }.

Inductive outcome (A : Type) : Type :=
| Ok (a : A)
| Raise (e : exn).
Arguments Ok {A} a.
Arguments Raise {A} e.

#[export] Instance exn_class_eq_dec : EqDecision exn_class.
Proof. solve_decision. Defined.

#[export] Instance outcome_ret : MRet outcome := fun A a => Ok a.
#[export] Instance outcome_bind : MBind outcome :=
  fun A B f m => match m with Ok a => f a | Raise e => Raise e end.
#[export] Instance outcome_fmap : FMap outcome :=
  fun A B f m => match m with Ok a => Ok (f a) | Raise e => Raise e end.

(** ** The built-in operations the script applies to values *)

Module Py.

(** The code points of a [str], read off its UTF-8 bytes: [pending]
    continuation bytes are still due for the code point whose high bits
    are [acc]. *)
Fixpoint code_points_from (pending : nat) (acc : N) (bytes : list N) : list N :=
  match bytes with
  | [] => []
  | b :: rest =>
      match pending with
      | S n =>
          let acc' := (acc * 64 + b mod 64)%N in
          match n with
          | O => acc' :: code_points_from O 0%N rest
          | S _ => code_points_from n acc' rest
          end
      | O =>
          if (b <? 128)%N then b :: code_points_from O 0%N rest
          else if (b <? 224)%N then code_points_from 1 (b mod 32)%N rest
          else if (b <? 240)%N then code_points_from 2 (b mod 16)%N rest
          else code_points_from 3 (b mod 8)%N rest
      end
  end.

Definition code_points (s : string) : list N :=
  code_points_from 0 0%N (N_of_ascii <$> list_ascii_of_string s).

(** The characters of a [str], each with its own bytes: a continuation
    byte belongs to the character before it. *)
Definition chars (s : string) : list string :=
  let step (b : ascii) (st : list ascii * list string) :=
    if ((128 <=? N_of_ascii b) && (N_of_ascii b <? 192))%N
    then (b :: st.1, st.2)
    else ([], string_of_list_ascii (b :: st.1) :: st.2) in
  let st := foldr step ([], []) (list_ascii_of_string s) in
  match st.1 with
  | [] => st.2
  | stray => string_of_list_ascii stray :: st.2
  end.

(** [needle in hay] on two [str]: substring containment. *)
Fixpoint startswith (hay needle : string) {struct needle} : bool :=
  match needle, hay with
  | EmptyString, _ => true
  | String a needle', String b hay' => Ascii.eqb a b && startswith hay' needle'
  | String _ _, EmptyString => false
  end.

Fixpoint str_contains (needle hay : string) : bool :=
  startswith hay needle ||
  match hay with
  | EmptyString => false
  | String _ hay' => str_contains needle hay'
  end.

(** [obj[key]] for a [str] key. *)
Definition getitem (obj : value) (key : string) : outcome value :=
  match obj with
  | VDict d =>
      match d !! key with
      | Some v => Ok v
      | None => Raise (Exn KeyError key)
      end
  | _ => Raise (Exn TypeError "")
  end.

(** [obj[key] = v], giving the object after the assignment. *)
Definition setitem (obj : value) (key : string) (v : value) : outcome value :=
  match obj with
  | VDict d => Ok (VDict (<[key := v]> d))
  | _ => Raise (Exn TypeError "")
  end.

(** [needle in container] for a [str] needle: substring of a [str],
    element of a [list], key of a [dict]; the other values are not
    containers. *)
Definition contains (needle : string) (container : value) : outcome bool :=
  match container with
  | VStr s => Ok (str_contains needle s)
  | VList l =>
      Ok (existsb (fun x => match x with
                            | VStr s => bool_decide (s = needle)
                            | _ => false
                            end) l)
  | VDict d => Ok (bool_decide (is_Some (d !! needle)))
  | _ => Raise (Exn TypeError "")
  end.

(** The items a [for] loop over [obj] visits: the elements of a list,
    the keys of a dict, the characters of a string. *)
Definition iter (obj : value) : outcome (list value) :=
  match obj with
  | VList l => Ok l
  | VDict d => Ok (VStr <$> (map_to_list d).*1)
  | VStr s => Ok (VStr <$> chars s)
  | _ => Raise (Exn TypeError "")
  end.

End Py.

(** ** [process_params]: the loop over the loaded parameters *)

(** The body of the loop of [process_params] (lines 43-46), on one
    [param]; the result is [param] after the two conditional
    assignments. *)
Definition bind_param (saml_provider_arn : value) (role_name : string)
    (param : value) : outcome value :=
  key ← Py.getitem param "ParameterKey";
  has_arn ← Py.contains "SAMLProviderARN" key;
  param ← (if has_arn : bool
           then Py.setitem param "ParameterValue" saml_provider_arn
           else Ok param);
  key ← Py.getitem param "ParameterKey";
  has_role ← Py.contains "RoleName" key;
  if has_role : bool
  then Py.setitem param "ParameterValue" (VStr role_name)
  else Ok param.

(** Lines 42-48 on the loaded [params]: the loop mutates the elements of
    a list in place and the function returns [params] itself.  The items
    of a dict or of a string are strings, which the loop cannot mutate. *)
Definition bind_params (params : value) (saml_provider_arn : value)
    (role_name : string) : outcome value :=
  items ← Py.iter params;
  items' ← mapM (bind_param saml_provider_arn role_name) items;
  Ok (match params with
      | VList _ => VList items'
      | _ => params
      end).

(** A parameter template as the parameters file is meant to hold it: a
    list of objects, each with a string [ParameterKey] and some
    [ParameterValue]. *)
Definition entry_key (param : value) : option string :=
  match param with
  | VDict d => match d !! "ParameterKey" with Some (VStr k) => Some k | _ => None end
  | _ => None
  end.

Definition entry_value (param : value) : option value :=
  match param with
  | VDict d => d !! "ParameterValue"
  | _ => None
  end.

Definition well_formed_entry (param : value) : Prop :=
  is_Some (entry_key param) ∧ is_Some (entry_value param).

Definition marked (marker : string) (param : value) : Prop :=
  ∃ k, entry_key param = Some k ∧ Py.str_contains marker k = true.

(** ** Collaborators, events and the state of a run

    The helpers under [provisioner.iam_helpers], [provisioner.cfn_helpers]
    and [provisioner.ad_helpers], and the file read by
    [json.load(open(path, 'r'))], are opaque capabilities: a call acts on
    the world (the cloud account, the file system) and returns a value or
    raises. *)

Inductive call : Type :=
| add_saml_provider (saml_metadata provider_name : string)
| look_up_saml_provider (provider_name : string)
| json_load_open (params_file : string)
| validate_template (template_path : string)
| create_stack (stack_name template_path : string) (parameters : value)
| update_stack (stack_name template_path : string) (parameters : value)
| look_up_role (role_name : string)
| generate_ad_role (role_name role_description : string)
    (trust_role_arn saml_provider_arn : value).

Class Collaborators (W : Type) : Type :=
  perform : call → W → outcome value * W.

(** Logging levels of the [logging] module and their numbers. *)
Inductive level : Type := DEBUG | INFO | WARNING.

Definition levelno (l : level) : Z :=
  match l with DEBUG => 10 | INFO => 20 | WARNING => 30 end.

(** What a run does that can be seen from outside: the calls to the
    collaborators with what they answered, and the records the logger
    writes to the console (message and arguments, before formatting). *)
Inductive event : Type :=
| Called (c : call) (answer : outcome value)
| Logged (lvl : level) (msg : string) (args : list value).

(** The state [main] runs in: the world, the events so far, and the local
    variable [parameters], which is assigned inside a [try] block and read
    inside its handler, so it can be unbound there. *)
Record frame (W : Type) : Type := Frame {
  world : W;
  trace : list event;
  parameters : option value
}.
Arguments Frame {W} _ _ _.
Arguments world {W} _.
Arguments trace {W} _.
Arguments parameters {W} _.

Definition M (W A : Type) : Type := frame W → outcome A * frame W.

#[export] Instance M_ret {W} : MRet (M W) := fun A a st => (Ok a, st).
#[export] Instance M_bind {W} : MBind (M W) :=
  fun A B f m st =>
    match m st with
    | (Ok a, st') => f a st'
    | (Raise e, st') => (Raise e, st')
    end.
#[global] Typeclasses Opaque M.

Section Run.
Context {W : Type} `{!Collaborators W}.

Definition raise {A} (e : exn) : M W A := fun st => (Raise e, st).

Definition lift {A} (r : outcome A) : M W A := fun st => (r, st).

(** [try: body except cls: handler]; a bare [raise] in the handler is
    [raise e] for the exception [e] being handled. *)
Definition try_except {A} (body : M W A) (cls : exn_class)
    (handler : exn → M W A) : M W A :=
  fun st =>
    match body st with
    | (Raise e, st') =>
        if decide (exn_cls e = cls) then handler e st' else (Raise e, st')
    | (Ok a, st') => (Ok a, st')
    end.

Definition invoke (c : call) : M W value :=
  fun st =>
    let '(answer, w) := perform c (world st) in
    (answer, Frame w (trace st ++ [Called c answer]) (parameters st)).

(** [setup_logger]: the logger and its only handler are both at level
    [INFO], so a record below [INFO] is dropped. *)
Definition log (lvl : level) (msg : string) (args : list value) : M W unit :=
  fun st =>
    if (levelno INFO <=? levelno lvl)%Z
    then (Ok (), Frame (world st) (trace st ++ [Logged lvl msg args]) (parameters st))
    else (Ok (), st).

Definition assign_parameters (v : value) : M W unit :=
  fun st => (Ok (), Frame (world st) (trace st) (Some v)).

Definition read_parameters : M W value :=
  fun st =>
    match parameters st with
    | Some v => (Ok v, st)
    | None => (Raise (Exn UnboundLocalError "parameters"), st)
    end.

(** [process_params] (lines 33-48).  [open(None, 'r')] raises
    [TypeError]. *)
Definition process_params (params_file : option string)
    (saml_provider_arn : value) (role_name : string) : M W value :=
  params ← match params_file with
           | Some path => invoke (json_load_open path)
           | None => raise (Exn TypeError "")
           end;
  params ← lift (bind_params params saml_provider_arn role_name);
  log DEBUG ("Parameters:" +:+ String "010" " %s") [params];;
  mret params.

End Run.

(** ** [json.dumps(obj, sort_keys=True, indent=4)] *)

Module Json.

Definition hex_digit (n : N) : ascii :=
  default "0"%char (list_ascii_of_string "0123456789abcdef" !! N.to_nat n).

(** ['{0:04x}'.format(n)] for [n] below [0x10000]. *)
Definition hex4 (n : N) : string :=
  String (hex_digit (n / 4096 mod 16))
    (String (hex_digit (n / 256 mod 16))
       (String (hex_digit (n / 16 mod 16))
          (String (hex_digit (n mod 16)) ""))).

(** [replace] of [py_encode_basestring_ascii], on one code point: the
    short escapes, the character itself between [' '] and ['~'], and
    [\uXXXX] for the rest, as a surrogate pair from [0x10000] on. *)
Definition escape (n : N) : string :=
  if (n =? 34)%N then "\" +:+ String "034" ""
  else if (n =? 92)%N then "\\"
  else if (n =? 10)%N then "\n"
  else if (n =? 13)%N then "\r"
  else if (n =? 9)%N then "\t"
  else if (n =? 12)%N then "\f"
  else if (n =? 8)%N then "\b"
  else if ((32 <=? n) && (n <=? 126))%N then String (ascii_of_N n) ""
  else if (n <? 65536)%N then "\u" +:+ hex4 n
  else
    let m := (n - 65536)%N in
    "\u" +:+ hex4 (55296 + m / 1024 mod 1024)
      +:+ "\u" +:+ hex4 (56320 + m mod 1024).

Definition encode_basestring_ascii (s : string) : string :=
  String "034" (String.concat "" (escape <$> Py.code_points s))
    +:+ String "034" "".

(** [floatstr]: the three floats that are not numbers of JSON are written
    by name; any other float is written as its [repr]. *)
Definition floatstr (f : pyfloat) : string :=
  match f with
  | Finite repr => repr
  | NaN => "NaN"
  | Infinity => "Infinity"
  | NegInfinity => "-Infinity"
  end.

(** ['\n' + ' ' * (indent * level)] *)
Definition newline_indent (level : nat) : string :=
  String "010" (string_of_list_ascii (replicate (4 * level) " "%char)).

(** The order of [sorted(dct.items())]: the keys of a dict are distinct,
    so the items are ordered by their keys, compared character by
    character. *)
Definition item_le {A} : relation (string * A) :=
  fun x y => String.leb x.1 y.1.

Definition sorted_items {A} (d : gmap string A) : list (string * A) :=
  merge_sort item_le (map_to_list d).

Definition encode_item (kv : string * string) : string :=
  encode_basestring_ascii kv.1 +:+ ": " +:+ kv.2.

(** The text between the brackets of a non-empty container at [level]:
    each chunk on a line of its own, indented one level deeper. *)
Definition encode_body (level : nat) (chunks : list string) : string :=
  newline_indent (S level)
    +:+ String.concat ("," +:+ newline_indent (S level)) chunks
    +:+ newline_indent level.

Fixpoint encode (level : nat) (o : value) : string :=
  match o with
  | VNone => "null"
  | VBool true => "true"
  | VBool false => "false"
  | VInt z => pretty z
  | VFloat f => floatstr f
  | VStr s => encode_basestring_ascii s
  | VList [] => "[]"
  | VList l => "[" +:+ encode_body level (encode (S level) <$> l) +:+ "]"
  | VDict d =>
      match sorted_items (encode (S level) <$> d) with
      | [] => "{}"
      | items => "{" +:+ encode_body level (encode_item <$> items) +:+ "}"
      end
  end.

Definition dumps (obj : value) : string := encode 0 obj.

End Json.

(** ** The namespace of parsed arguments and [main] *)

Module Args.
Record t : Type := Make {
  saml_metadata : string;
  template_path : string;
  params_file : option string;
  stack_name : string;
  provider_name : string;
  role_name : string;
  role_description : string
}.
End Args.

Section Main.
Context {W : Type} `{!Collaborators W}.

(** [main] (lines 50-95). *)
Definition main (args : Args.t) : M W unit :=
  log INFO "Adding SAML provider to Account..." [];;
  let stack_name := Args.stack_name args in
  let role_name := Args.role_name args in
  let template_path := Args.template_path args in
  let params_file := Args.params_file args in
  saml_provider_arn ←
    try_except
      (invoke (add_saml_provider (Args.saml_metadata args) (Args.provider_name args)))
      SAMLProviderExistsError
      (fun _ =>
         log INFO "SAML provider %s already exists. Looking up ARN..."
           [VStr (Args.provider_name args)];;
         invoke (look_up_saml_provider (Args.provider_name args)));
  log DEBUG "Identity Provider: %s" [saml_provider_arn];;
  log INFO "Adding Role to account..." [];;
  try_except
    (parameters ← process_params params_file saml_provider_arn role_name;
     assign_parameters parameters;;
     log DEBUG "Validating template '%s'" [VStr template_path];;
     invoke (validate_template template_path);;
     stack_id ← invoke (create_stack stack_name template_path parameters);
     log INFO "Stack created. ID: %s" [stack_id])
    StackExistsError
    (fun _ =>
       log INFO "Stack %s already exists. Updating stack instead." [VStr stack_name];;
       try_except
         (parameters ← read_parameters;
          response ← invoke (update_stack stack_name template_path parameters);
          log DEBUG "Stack updated successfully. Response: %s" [response])
         NoUpdateToPerformError
         (fun _ => log DEBUG "Stack does not require Updating." []));;
  log INFO "Looking up role ARN..." [];;
  trust_role_arn ←
    try_except
      (role_data ← invoke (look_up_role role_name);
       role ← lift (Py.getitem role_data "Role");
       trust_role_arn ← lift (Py.getitem role "Arn");
       log DEBUG "Role Found: %s" [trust_role_arn];;
       mret trust_role_arn)
      RoleNotFoundError
      (fun e =>
         log WARNING "Couldn't find role %s" [VStr role_name];;
         raise e);
  log INFO "Generating appRoles JSON blob..." [];;
  approles_blob ←
    invoke (generate_ad_role (Args.role_name args) (Args.role_description args)
              trust_role_arn saml_provider_arn);
  log DEBUG "appRoles json generated:" [];;
  log INFO (String "010" "%s") [VStr (Json.dumps approles_blob)].

(** A run of [main] from a world [w]: nothing has happened yet and
    [parameters] is unbound. *)
Definition start (w : W) : frame W := Frame w [] None.

Definition run (args : Args.t) (w : W) : outcome unit * frame W :=
  main args (start w).

Definition result (args : Args.t) (w : W) : outcome unit := (run args w).1.

Definition events (args : Args.t) (w : W) : list event := trace (run args w).2.

End Main.

(** [role_data['Role']['Arn']] (line 83). *)
Definition role_arn (role_data : value) : outcome value :=
  role ← Py.getitem role_data "Role"; Py.getitem role "Arn".

(** ** Reading a trace *)

Definition is_stack_mutation (ev : event) : Prop :=
  match ev with
  | Called (create_stack _ _ _) _ | Called (update_stack _ _ _) _ => True
  | _ => False
  end.

Definition is_validation_of (template_path : string) (ev : event) : Prop :=
  match ev with
  | Called (validate_template p) (Ok _) => p = template_path
  | _ => False
  end.

(** Every event satisfying [Q] comes after one satisfying [P]. *)
Definition precedes (P Q : event → Prop) (tr : list event) : Prop :=
  ∀ pre ev post, tr = pre ++ ev :: post → Q ev → Exists P pre.

(** The record line 95 writes: the serialised manifest. *)
Definition manifest_record (text : string) : event :=
  Logged INFO (String "010" "%s") [VStr text].

Definition manifest_emitted (tr : list event) : Prop :=
  ∃ text, manifest_record text ∈ tr.

(** ** The manifest builder

    Modelled from the spec: [provisioner.ad_helpers.approles], with
    [generate_ad_role], is not part of the sources at hand.  Spec section
    3 gives the blob it builds as [roleName], [roleDescription],
    [trustReference], [providerReference] and an ellipsis, and section 6
    says the object holds these four "at minimum": [manifest_with more]
    is the blob with the four fields on top of whatever further fields
    [more] there are.  Section 4.5 says the build is pure: the blob is a
    function of the four inputs and the world is left as it was; which
    further fields a builder adds is its own affair. *)
Definition manifest_with (more : gmap string value)
    (role_name role_description : string)
    (trust_role_arn saml_provider_arn : value) : value :=
  VDict (<["roleName" := VStr role_name]>
        (<["roleDescription" := VStr role_description]>
        (<["trustReference" := trust_role_arn]>
        (<["providerReference" := saml_provider_arn]> more)))).

(** The blob of the four fields and nothing else. *)
Definition manifest_blob : string → string → value → value → value :=
  manifest_with ∅.

Class SpecManifest (W : Type) `{!Collaborators W} : Prop :=
  generate_ad_role_spec :
    ∃ more_fields : string → string → value → value → gmap string value,
    ∀ role_name role_description trust_role_arn saml_provider_arn (w : W),
      perform (generate_ad_role role_name role_description
                 trust_role_arn saml_provider_arn) w
      = (Ok (manifest_with
               (more_fields role_name role_description
                  trust_role_arn saml_provider_arn)
               role_name role_description
               trust_role_arn saml_provider_arn), w).

(** The contract of [validate_template] in spec section 4.3: it succeeds
    or fails with its own error; it never reports that a stack exists. *)
Class ValidateContract (W : Type) `{!Collaborators W} : Prop :=
  validate_template_raises :
    ∀ template_path (w w' : W) e,
      perform (validate_template template_path) w = (Raise e, w') →
      exn_cls e ≠ StackExistsError.

(** ** The command line (lines 98-136) *)

Module Argparse.

(** What an argument does when the command line has it: [Store] keeps
    the word that follows as the attribute [dest] (the action of
    [add_argument] when none is named); [Help] prints the help and ends
    the process with status 0. *)
Inductive action : Type :=
| Store
| Help.

(** One argument of a parser; every argument of the script has
    [type=str].  [default = None] is Python's [None]: no [default=] was
    given. *)
Record argument : Type := Argument {
  option_string : string;
  required : bool;
  help : string;
  dest : string;
  default : option string;
  act : action
}.

(** The argument every [ArgumentParser(...)] starts with, [add_help]
    being left at [True]. *)
Definition help_argument : argument :=
  Argument "-h --help" false "show this help message and exit" "help" None
    Help.

Definition stores (a : argument) : bool :=
  match act a with
  | Store => true
  | Help => false
  end.

(** [add_argument] with [type=str] and no [action=]. *)
Definition add_argument (option_string : string) (required : bool)
    (help dest : string) (default : option string) : argument :=
  Argument option_string required help dest default Store.

(** The namespace [parse_args] returns: attribute name to [str] or
    [None]. *)
Definition namespace : Type := gmap string (option string).

(** Every attribute starts at the default of its argument; the help
    argument leaves no attribute (its default is [SUPPRESS]). *)
Definition defaults (parser : list argument) : namespace :=
  list_to_map ((fun a => (dest a, default a)) <$> List.filter stores parser).

(** [parse_args], on the options the command line supplies, by [dest]
    (how the words of the command line are matched to the option strings
    is left out; the help flag is supplied with any word): with the help
    flag the process ends with status 0 as soon as the flag is read;
    without it, an unknown option or a missing required one ends the
    process with status 2. *)
Definition parse_args (parser : list argument)
    (supplied : gmap string string) : outcome namespace :=
  if existsb (fun a => negb (stores a)
                       && bool_decide (is_Some (supplied !! dest a))) parser
  then Raise (Exn SystemExit "0")
  else if bool_decide (dom supplied ⊆ list_to_set (dest <$> parser))
          && forallb (fun a => implb (required a)
                                 (bool_decide (is_Some (supplied !! dest a))))
               parser
  then Ok ((Some <$> supplied) ∪ defaults parser)
  else Raise (Exn SystemExit "2").

(** [args.name] *)
Definition attr (ns : namespace) (name : string) : option string :=
  mjoin (ns !! name).

End Argparse.

(** [__parser__] (lines 100-133): the parser [ArgumentParser(...)] makes,
    which has the help argument, and the seven arguments added to it. *)
Definition __parser__ : list Argparse.argument := [
  Argparse.help_argument;
  Argparse.add_argument "-m --saml_metadata" true
    "file containing AD cert metadata" "saml_metadata" None;
  Argparse.add_argument "-t --cfn_template" true
    "path to cloudformation template" "template_path" None;
  Argparse.add_argument "-p --cfn_parameters" false
    "path to cloudformation parameters file" "params_file" None;
  Argparse.add_argument "-s --stack_name" false
    "name of the cloudformation stack" "stack_name"
    (Some "federated-trust-role-and-policy");
  Argparse.add_argument "-i --idp_name" false
    "name to assign to the identity provider" "provider_name"
    (Some "new_saml_provider");
  Argparse.add_argument "-r --role_name" false
    "name to assign to the role created" "role_name"
    (Some "new_saml_role");
  Argparse.add_argument "-d --role_description" false
    "description to assign to the role created" "role_description"
    (Some "A role created by")
].

(** The attributes [main] reads from the namespace.  After a successful
    parse every one of them but [params_file] is a [str]. *)
Definition args_of (ns : Argparse.namespace) : Args.t :=
  let str name := default "" (Argparse.attr ns name) in
  Args.Make (str "saml_metadata") (str "template_path")
    (Argparse.attr ns "params_file") (str "stack_name")
    (str "provider_name") (str "role_name") (str "role_description").

(** The script run as [__main__] (lines 135-136). *)
Definition script {W : Type} `{!Collaborators W}
    (supplied : gmap string string) : M W unit :=
  match Argparse.parse_args __parser__ supplied with
  | Ok ns => main (args_of ns)
  | Raise e => raise e
  end.

(** What the claim on the command line asks of an optional argument. *)
Definition has_default (a : Argparse.argument) : Prop :=
  is_Some (Argparse.default a).

(** ** A simulated account

    A small world to run the script in: an account with its providers,
    stacks and roles, and a file system with the parsed content of its
    JSON files.  Creating a stack creates the roles its [RoleName]
    parameters name; updating one fails with [NoUpdateToPerformError]
    unless the stack is marked as drifted. *)

Module Account.

Record t : Type := Make {
  providers : gmap string value;
  stacks : gmap string value;
  roles : gmap string value;
  files : gmap string value;
  valid_templates : gset string;
  drifted : gset string
}.

Definition provider_arn (name : string) : value :=
  VStr ("arn:aws:iam::123456789012:saml-provider/" +:+ name).

Definition role_data (name : string) : value :=
  VDict (<["Role" :=
             VDict (<["Arn" := VStr ("arn:aws:iam::123456789012:role/" +:+ name)]>
                   (<["RoleName" := VStr name]> ∅))]> ∅).

Definition role_names (parameters : value) : list string :=
  match parameters with
  | VList l =>
      omap (fun param =>
              match entry_key param, entry_value param with
              | Some k, Some (VStr name) =>
                  if Py.str_contains "RoleName" k then Some name else None
              | _, _ => None
              end) l
  | _ => []
  end.

Definition respond (c : call) (acc : t) : outcome value * t :=
  match c with
  | add_saml_provider _ name =>
      match providers acc !! name with
      | Some _ => (Raise (Exn SAMLProviderExistsError name), acc)
      | None =>
          (Ok (provider_arn name),
           Make (<[name := provider_arn name]> (providers acc)) (stacks acc)
             (roles acc) (files acc) (valid_templates acc) (drifted acc))
      end
  | look_up_saml_provider name =>
      match providers acc !! name with
      | Some arn => (Ok arn, acc)
      | None => (Raise (Exn (OtherError "SAMLProviderNotFoundError") name), acc)
      end
  | json_load_open path =>
      match files acc !! path with
      | Some content => (Ok content, acc)
      | None => (Raise (Exn (OtherError "FileNotFoundError") path), acc)
      end
  | validate_template path =>
      if bool_decide (path ∈ valid_templates acc)
      then (Ok VNone, acc)
      else (Raise (Exn (OtherError "InvalidTemplate") path), acc)
  | create_stack name _ params =>
      match stacks acc !! name with
      | Some _ => (Raise (Exn StackExistsError name), acc)
      | None =>
          (Ok (VStr ("arn:aws:cloudformation:stack/" +:+ name)),
           Make (providers acc) (<[name := params]> (stacks acc))
             (foldr (fun r m => <[r := role_data r]> m) (roles acc) (role_names params))
             (files acc) (valid_templates acc) (drifted acc))
      end
  | update_stack name _ params =>
      match stacks acc !! name with
      | None => (Raise (Exn (OtherError "ValidationError") name), acc)
      | Some _ =>
          if bool_decide (name ∈ drifted acc)
          then (Ok (VStr ("arn:aws:cloudformation:stack/" +:+ name)),
                Make (providers acc) (<[name := params]> (stacks acc))
                  (foldr (fun r m => <[r := role_data r]> m) (roles acc) (role_names params))
                  (files acc) (valid_templates acc) (drifted acc ∖ {[name]}))
          else (Raise (Exn NoUpdateToPerformError name), acc)
      end
  | look_up_role name =>
      match roles acc !! name with
      | Some data => (Ok data, acc)
      | None => (Raise (Exn RoleNotFoundError name), acc)
      end
  | generate_ad_role role_name role_description trust_role_arn saml_provider_arn =>
      (Ok (manifest_blob role_name role_description trust_role_arn saml_provider_arn),
       acc)
  end.

#[global] Instance collaborators : Collaborators t := respond.

(** A parameters file with an entry for each marker, one whose key only
    contains a marker, and one without any. *)
Definition param (key : string) (val : value) : value :=
  VDict (<["ParameterKey" := VStr key]> (<["ParameterValue" := val]> ∅)).

Definition template : list value :=
  [param "SAMLProviderARN" (VStr "");
   param "RoleName" (VStr "");
   param "TrustRoleName" (VStr "old");
   param "SessionDuration" (VInt 3600)].

Definition parameters_json : value := VList template.

(** An entry without [ParameterKey]. *)
Definition malformed_json : value :=
  VList [param "RoleName" (VStr "");
         VDict (<["ParameterValue" := VStr "x"]> ∅)].

Definition disk : gmap string value :=
  <["params.json" := parameters_json]> (<["bad.json" := malformed_json]> ∅).

(** A fresh account: no provider, no stack, no role. *)
Definition fresh : t := Make ∅ ∅ ∅ disk {["role.yaml"]} ∅.

Definition args : Args.t :=
  Args.Make "metadata.xml" "role.yaml" (Some "params.json")
    "federated-trust-role-and-policy" "new_saml_provider" "new_saml_role"
    "A role created by".

(** The same run with the malformed parameters file, and with none. *)
Definition bad_args : Args.t :=
  Args.Make "metadata.xml" "role.yaml" (Some "bad.json")
    "federated-trust-role-and-policy" "new_saml_provider" "new_saml_role"
    "A role created by".

Definition no_file_args : Args.t :=
  Args.Make "metadata.xml" "role.yaml" None
    "federated-trust-role-and-policy" "new_saml_provider" "new_saml_role"
    "A role created by".

(** The parameters of [template] once bound by the run. *)
Definition bound_template : list value :=
  match bind_params parameters_json (provider_arn "new_saml_provider")
          "new_saml_role" with
  | Ok (VList l) => l
  | _ => []
  end.

(** The text of the last record of a trace. *)
Definition last_text (tr : list event) : string :=
  match last tr with
  | Some (Logged _ _ [VStr text]) => text
  | _ => ""
  end.

(** The account after a first run of the script. *)
Definition provisioned : t := world (run args fresh).2.

(** The account when the stack exists but its role has been deleted. *)
Definition role_deleted : t :=
  Make (providers provisioned) (stacks provisioned) ∅ (files provisioned)
    (valid_templates provisioned) (drifted provisioned).

End Account.

(** ** A scripted world

    A world that answers every call from a fixed table, whatever happened
    before; [stray_validation] is one whose [validate_template] breaks
    its contract and reports an existing stack. *)

Module Scripted.

Definition t : Type := call → outcome value.

#[global] Instance collaborators : Collaborators t :=
  fun c answers => (answers c, answers).

Definition stray_validation : t :=
  fun c =>
    match c with
    | validate_template path => Raise (Exn StackExistsError path)
    | json_load_open _ => Ok (VList [])
    | _ => Ok VNone
    end.

End Scripted.

(** ** The steps of a run *)

(** The collaborator a call goes to. *)
Inductive operation : Type :=
| AddSamlProvider
| LookUpSamlProvider
| JsonLoadOpen
| ValidateTemplate
| CreateStack
| UpdateStack
| LookUpRole
| GenerateAdRole.

#[export] Instance operation_eq_dec : EqDecision operation.
Proof. solve_decision. Defined.

Definition operation_of (c : call) : operation :=
  match c with
  | add_saml_provider _ _ => AddSamlProvider
  | look_up_saml_provider _ => LookUpSamlProvider
  | json_load_open _ => JsonLoadOpen
  | validate_template _ => ValidateTemplate
  | create_stack _ _ _ => CreateStack
  | update_stack _ _ _ => UpdateStack
  | look_up_role _ => LookUpRole
  | generate_ad_role _ _ _ _ => GenerateAdRole
  end.

(** The collaborators a trace calls, in order. *)
Definition operations (tr : list event) : list operation :=
  omap (fun ev => match ev with
                  | Called c _ => Some (operation_of c)
                  | Logged _ _ _ => None
                  end) tr.

Definition is_call_of (o : operation) (ev : event) : Prop :=
  match ev with
  | Called c _ => operation_of c = o
  | Logged _ _ _ => False
  end.

Definition returned_from (o : operation) (ev : event) : Prop :=
  match ev with
  | Called c (Ok _) => operation_of c = o
  | _ => False
  end.

Definition raised_from (o : operation) (cls : exn_class) (ev : event) : Prop :=
  match ev with
  | Called c (Raise e) => operation_of c = o ∧ exn_cls e = cls
  | _ => False
  end.

Definition is_manifest_record (ev : event) : Prop :=
  ∃ text, ev = manifest_record text.

(** The exceptions an [except] clause of [main] is there for, by the call
    that raises them: lines 60, 72, 77 and 85. *)
Definition caught (c : call) (e : exn) : Prop :=
  match operation_of c with
  | AddSamlProvider => exn_cls e = SAMLProviderExistsError
  | JsonLoadOpen | ValidateTemplate | CreateStack =>
      exn_cls e = StackExistsError
  | UpdateStack => exn_cls e = NoUpdateToPerformError
  | LookUpRole => exn_cls e = RoleNotFoundError
  | LookUpSamlProvider | GenerateAdRole => False
  end.

(** A call made with the arguments of the command line. *)
Definition uses_arguments (args : Args.t) (c : call) : Prop :=
  match c with
  | add_saml_provider metadata name =>
      metadata = Args.saml_metadata args ∧ name = Args.provider_name args
  | look_up_saml_provider name => name = Args.provider_name args
  | json_load_open path => Args.params_file args = Some path
  | validate_template path => path = Args.template_path args
  | create_stack name path _ | update_stack name path _ =>
      name = Args.stack_name args ∧ path = Args.template_path args
  | look_up_role name => name = Args.role_name args
  | generate_ad_role name description _ _ =>
      name = Args.role_name args ∧ description = Args.role_description args
  end.

(** The parameters a stack call is given. *)
Definition carries (params : value) (ev : event) : Prop :=
  match ev with
  | Called (create_stack _ _ p) _ | Called (update_stack _ _ p) _ => p = params
  | _ => True
  end.

(** A record the console shows: not one of level [DEBUG]. *)
Definition not_debug (ev : event) : Prop :=
  match ev with
  | Logged DEBUG _ _ => False
  | _ => True
  end.

Definition made_with (args : Args.t) (ev : event) : Prop :=
  match ev with
  | Called c _ => uses_arguments args c
  | Logged _ _ _ => True
  end.

(** A [str] of printable ASCII characters other than the quote and the
    backslash: the keys one expects in a manifest. *)
Definition plain (s : string) : bool :=
  forallb (fun c => let n := N_of_ascii c in
                    (32 <=? n)%N && (n <=? 126)%N
                    && negb (n =? 34)%N && negb (n =? 92)%N)
    (list_ascii_of_string s).

(** The two calls that obtain the provider reference. *)
Definition provider_only (o : operation) : Prop :=
  o = AddSamlProvider ∨ o = LookUpSamlProvider.

(** A run whose parameters file does not exist. *)
Definition missing_file_args : Args.t :=
  Args.Make "metadata.xml" "role.yaml" (Some "missing.json")
    "federated-trust-role-and-policy" "new_saml_provider" "new_saml_role"
    "A role created by".

(** * Properties *)

(** ** Substring containment *)

Lemma startswith_spec hay needle :
  Py.startswith hay needle = true ↔ ∃ rest, hay = needle +:+ rest.
Proof.
  revert hay. induction needle as [|a needle IH]; intros hay; simpl.
  - split; [intros _; by exists hay | done].
  - destruct hay as [|b hay].
    + split; [done | intros [rest ?]; discriminate].
    + rewrite andb_true_iff, Ascii.eqb_eq, IH. split.
      * intros [-> [rest ->]]. by exists rest.
      * intros [rest [= -> ->]]. split; [done | by exists rest].
Qed.

Lemma str_contains_spec needle hay :
  Py.str_contains needle hay = true ↔ ∃ pre post, hay = pre +:+ needle +:+ post.
Proof.
  induction hay as [|b hay IH]; simpl.
  - rewrite orb_false_r, startswith_spec. split.
    + intros [rest ->]. by exists "", rest.
    + intros [[|c pre] [post Heq]]; [by exists post | discriminate].
  - rewrite orb_true_iff, startswith_spec, IH. split.
    + intros [[rest ->] | (pre & post & ->)].
      * by exists "", rest.
      * by exists (String b pre), post.
    + intros [[|c pre] [post Heq]].
      * left. by exists post.
      * right. injection Heq as -> ->. by exists pre, post.
Qed.

(** ** The outcome monad on lists *)

Lemma mapM_Ok {A B} (f : A → outcome B) (l : list A) (k : list B) :
  mapM f l = Ok k ↔ Forall2 (fun x y => f x = Ok y) l k.
Proof.
  revert k. induction l as [|x l IH]; intros k; simpl.
  - split; [intros [= <-]; constructor | by inversion 1].
  - unfold mbind, outcome_bind, mret, outcome_ret.
    destruct (f x) as [y|e] eqn:Hx.
    + destruct (mapM f l) as [k'|e] eqn:Hl.
      * split.
        -- intros [= <-]. constructor; [done | by apply IH].
        -- inversion 1 as [|? y' ? k'' Hy Hk]; subst.
           apply IH in Hk. congruence.
      * split; [done |].
        inversion 1 as [|? y' ? k'' Hy Hk]; subst. by apply IH in Hk.
    + split; [done |]. inversion 1; congruence.
Qed.

Lemma mapM_Raise {A B} (f : A → outcome B) (l : list A) e :
  mapM f l = Raise e → ∃ x, x ∈ l ∧ f x = Raise e.
Proof.
  induction l as [|x l IH]; simpl; [done |].
  unfold mbind, outcome_bind, mret, outcome_ret.
  destruct (f x) as [y|e'] eqn:Hx.
  - destruct (mapM f l) as [k'|e'] eqn:Hl; [done |].
    intros [= ->]. destruct IH as (x' & ? & ?); [done |].
    exists x'. split; [by right | done].
  - intros [= ->]. exists x. split; [by left | done].
Qed.

Lemma mapM_fails {A B} (f : A → outcome B) (l : list A) x e :
  x ∈ l → f x = Raise e → ∃ e', mapM f l = Raise e'.
Proof.
  intros Hx Hf. destruct (mapM f l) as [k|e'] eqn:Hl; [| by exists e'].
  apply mapM_Ok in Hl. apply list_elem_of_lookup in Hx as [i Hi].
  destruct (Forall2_lookup_l _ _ _ _ _ Hl Hi) as (y & _ & Hy). congruence.
Qed.

(** ** The loop body on one entry *)

Lemma getitem_raises o k e :
  Py.getitem o k = Raise e → exn_cls e = KeyError ∨ exn_cls e = TypeError.
Proof.
  destruct o; simpl; try (intros [= <-]; by auto).
  destruct (d !! k); intros [= <-]; by auto.
Qed.

Lemma contains_raises needle o e :
  Py.contains needle o = Raise e → exn_cls e = TypeError.
Proof. destruct o; simpl; by intros [= <-]. Qed.

Lemma setitem_raises o k v e :
  Py.setitem o k v = Raise e → exn_cls e = TypeError.
Proof. destruct o; simpl; by intros [= <-]. Qed.

(** On an object whose [ParameterKey] is the string [k], the body makes
    its two assignments in order, each if [k] contains the marker. *)
Lemma bind_param_dict p r (d : gmap string value) k :
  d !! "ParameterKey" = Some (VStr k) →
  bind_param p r (VDict d) =
    Ok (VDict
          (let d1 := if Py.str_contains "SAMLProviderARN" k
                     then <["ParameterValue" := p]> d else d in
           if Py.str_contains "RoleName" k
           then <["ParameterValue" := VStr r]> d1 else d1)).
Proof.
  intros Hk. unfold bind_param; simpl. rewrite Hk; simpl.
  destruct (Py.str_contains "SAMLProviderARN" k); simpl.
  - rewrite lookup_insert_ne by done. rewrite Hk; simpl.
    by destruct (Py.str_contains "RoleName" k).
  - rewrite Hk; simpl. by destruct (Py.str_contains "RoleName" k).
Qed.

Lemma bind_param_raises p r param e :
  bind_param p r param = Raise e →
  exn_cls e = KeyError ∨ exn_cls e = TypeError.
Proof.
  unfold bind_param, mbind, outcome_bind.
  destruct (Py.getitem param "ParameterKey") as [key|] eqn:Hget;
    [| intros [= <-]; by eapply getitem_raises].
  destruct (Py.contains "SAMLProviderARN" key) as [b|] eqn:Hc;
    [| intros [= <-]; right; by eapply contains_raises].
  destruct (if b then _ else _) as [param'|] eqn:Hset.
  - destruct (Py.getitem param' "ParameterKey") as [key'|] eqn:Hget';
      [| intros [= <-]; by eapply getitem_raises].
    destruct (Py.contains "RoleName" key') as [b'|] eqn:Hc';
      [| intros [= <-]; right; by eapply contains_raises].
    destruct b'; [| done]. intros Hs. right. by eapply setitem_raises.
  - intros [= <-]. destruct b; [| done]. right. by eapply setitem_raises.
Qed.

(** An object without [ParameterKey] stops the loop with
    [KeyError('ParameterKey')]. *)
Lemma bind_param_missing_key p r (d : gmap string value) :
  d !! "ParameterKey" = None →
  bind_param p r (VDict d) = Raise (Exn KeyError "ParameterKey").
Proof. intros Hk. unfold bind_param; simpl. by rewrite Hk. Qed.

(** ** The loop on a list *)

Lemma bind_params_list T p r v :
  bind_params (VList T) p r = Ok v ↔
  ∃ T', v = VList T' ∧ Forall2 (fun e e' => bind_param p r e = Ok e') T T'.
Proof.
  change (bind_params (VList T) p r) with
    (match mapM (bind_param p r) T with
     | Ok T' => Ok (VList T')
     | Raise e => Raise e
     end).
  destruct (mapM (bind_param p r) T) as [T'|e] eqn:Hm.
  - split.
    + intros [= <-]. exists T'. split; [done | by apply mapM_Ok].
    + intros (T'' & -> & HT%mapM_Ok). congruence.
  - split; [done |]. intros (T' & -> & HT%mapM_Ok). congruence.
Qed.

Lemma bind_params_raises params p r e :
  bind_params params p r = Raise e →
  exn_cls e = KeyError ∨ exn_cls e = TypeError.
Proof.
  unfold bind_params, mbind, outcome_bind.
  destruct (Py.iter params) as [items|] eqn:Hiter.
  - destruct (mapM _ items) as [|e'] eqn:Hm; [done |].
    intros [= <-]. apply mapM_Raise in Hm as (x & _ & Hx).
    by eapply bind_param_raises.
  - intros [= <-]. right. destruct params; simpl in Hiter; by simplify_eq.
Qed.

Lemma entry_key_dict e k :
  entry_key e = Some k ↔ ∃ d, e = VDict d ∧ d !! "ParameterKey" = Some (VStr k).
Proof.
  split.
  - destruct e as [| | | | | |d]; simpl; try done.
    destruct (d !! "ParameterKey") as [[]|] eqn:Hd; try done.
    intros [= ->]. by exists d.
  - intros (d & -> & Hd). simpl. by rewrite Hd.
Qed.

(** What the loop body does to an entry with a string key, in the terms
    of [marked]. *)
Lemma bind_param_entry p r e k :
  entry_key e = Some k →
  ∃ e', bind_param p r e = Ok e' ∧
    entry_key e' = Some k ∧
    (Py.str_contains "SAMLProviderARN" k = false →
     Py.str_contains "RoleName" k = false → e' = e) ∧
    (Py.str_contains "RoleName" k = true → entry_value e' = Some (VStr r)) ∧
    (Py.str_contains "SAMLProviderARN" k = true →
     Py.str_contains "RoleName" k = false → entry_value e' = Some p) ∧
    (∀ d d', e = VDict d → e' = VDict d' →
       ∀ field, field ≠ "ParameterValue" → d' !! field = d !! field).
Proof.
  intros (d & -> & Hd)%entry_key_dict.
  eexists. split; [by apply bind_param_dict |]. simpl.
  destruct (Py.str_contains "SAMLProviderARN" k),
    (Py.str_contains "RoleName" k); simpl;
    rewrite ?lookup_insert_ne by done; rewrite ?Hd, ?lookup_insert_eq;
    repeat split; try done;
    intros ?? [= <-] [= <-] field Hf; by rewrite ?lookup_insert_ne by done.
Qed.

(** The loop body succeeds on every entry of a well-formed template. *)
Lemma bind_param_all p r (T : list value) :
  Forall well_formed_entry T →
  ∃ T', Forall2 (fun e e' => bind_param p r e = Ok e') T T'.
Proof.
  induction 1 as [|e T [[k Hk] _] _ [T' IH]]; [by exists [] |].
  destruct (bind_param_entry p r e k Hk) as (e' & He' & _).
  exists (e' :: T'). by constructor.
Qed.

(** ** [process_params] *)

Section ProcessParams.
Context {W : Type} `{!Collaborators W}.

(** A call of [process_params] with a file name: one read of the file,
    then the loop on what was read; the [debug] record is dropped. *)
Lemma process_params_run path p r (st : frame W) answer w' :
  perform (json_load_open path) (world st) = (answer, w') →
  process_params (Some path) p r st =
    (match answer with
     | Ok params => bind_params params p r
     | Raise e => Raise e
     end,
     Frame w' (trace st ++ [Called (json_load_open path) answer]) (parameters st)).
Proof.
  intros Hload. unfold process_params.
  cbv [mbind M_bind mret M_ret invoke lift log levelno]. rewrite Hload.
  destruct answer as [params|e]; [| done]. simpl.
  by destruct (bind_params params p r).
Qed.

(** Without a file name, [open] raises [TypeError] and nothing is
    read. *)
Lemma process_params_no_file p r (st : frame W) :
  process_params None p r st = (Raise (Exn TypeError ""), st).
Proof. done. Qed.

(** C1.  For a parameter template [T], a list of entries each with a
    string [ParameterKey] and a [ParameterValue], [process_params]
    succeeds with a list [T'] of the same length, whose keys are those
    of [T] (entry by entry, hence as a multiset).  An entry whose key
    matches neither marker (contains neither [SAMLProviderARN] nor
    [RoleName], the test the code makes) is identical in [T'].  An entry
    whose key matches [RoleName] has the role name as its value, one
    whose key matches [SAMLProviderARN] only has the provider reference;
    of a modified entry nothing but [ParameterValue] changes. *)
Theorem process_params_frame path p r (T : list value) (st : frame W) w' :
  perform (json_load_open path) (world st) = (Ok (VList T), w') →
  Forall well_formed_entry T →
  ∃ T',
    (process_params (Some path) p r st).1 = Ok (VList T') ∧
    length T' = length T ∧
    entry_key <$> T' ≡ₚ entry_key <$> T ∧
    ∀ i e, T !! i = Some e →
      ∃ e', T' !! i = Some e' ∧
        entry_key e' = entry_key e ∧
        (¬ marked "SAMLProviderARN" e → ¬ marked "RoleName" e → e' = e) ∧
        (marked "RoleName" e → entry_value e' = Some (VStr r)) ∧
        (marked "SAMLProviderARN" e → ¬ marked "RoleName" e →
         entry_value e' = Some p) ∧
        (∀ d d', e = VDict d → e' = VDict d' →
           ∀ field, field ≠ "ParameterValue" → d' !! field = d !! field).
Proof.
  intros Hload HT.
  rewrite (process_params_run _ _ _ _ _ _ Hload); simpl.
  destruct (bind_param_all p r T HT) as [T' HT'].
  assert (∀ i e, T !! i = Some e →
            ∃ e' k, T' !! i = Some e' ∧ bind_param p r e = Ok e' ∧
                    entry_key e = Some k) as Hlookup.
  { intros i e Hi.
    destruct (Forall2_lookup_l _ _ _ _ _ HT' Hi) as (e' & Hi' & He').
    destruct (proj1 (Forall_lookup _ _) HT i e Hi) as [[k Hk] _].
    by exists e', k. }
  exists T'. split; [| split; [| split]].
  - apply bind_params_list. by exists T'.
  - symmetry. by eapply Forall2_length.
  - assert (entry_key <$> T' = entry_key <$> T) as ->; [| done].
    apply list_eq; intros i. rewrite !list_lookup_fmap.
    destruct (T !! i) as [e|] eqn:Hi.
    + destruct (Hlookup i e Hi) as (e' & k & -> & He' & Hk). simpl.
      destruct (bind_param_entry p r e k Hk) as (e'' & He'' & Hk' & _).
      congruence.
    + apply lookup_ge_None in Hi.
      rewrite (Forall2_length _ _ _ HT') in Hi.
      apply lookup_ge_None in Hi. by rewrite Hi.
  - intros i e Hi.
    destruct (Hlookup i e Hi) as (e' & k & Hi' & He' & Hk).
    destruct (bind_param_entry p r e k Hk)
      as (e'' & He'' & Hk' & Hsame & Hrole & Harn & Hfields).
    assert (e'' = e') as -> by congruence.
    exists e'. split; [done |]. split; [congruence |].
    split_and!; [| | | done].
    + intros Hna Hnr. apply Hsame.
      * destruct (Py.str_contains "SAMLProviderARN" k) eqn:Hc; [| done].
        destruct Hna. by exists k.
      * destruct (Py.str_contains "RoleName" k) eqn:Hc; [| done].
        destruct Hnr. by exists k.
    + intros (k' & Hk'' & Hc). apply Hrole. congruence.
    + intros (k' & Hk'' & Hc) Hnr. apply Harn; [congruence |].
      destruct (Py.str_contains "RoleName" k) eqn:Hc'; [| done].
      destruct Hnr. by exists k.
Qed.

End ProcessParams.

(** C9.  The markers are recognised by substring containment.  In a
    template the loop accepts, an entry whose key contains [RoleName]
    (as [TrustRoleName] does) gets the role name, exactly as the entry
    keyed [RoleName] itself would; an entry whose key contains
    [SAMLProviderARN] and not [RoleName] gets the provider reference;
    and on an entry whose key contains both markers both assignments are
    made, the provider reference first and the role name last, so the
    role name is what stays. *)
Theorem marker_is_substring (T T' : list value) p r i
    (d : gmap string value) k :
  bind_params (VList T) p r = Ok (VList T') →
  T !! i = Some (VDict d) →
  d !! "ParameterKey" = Some (VStr k) →
  ((∃ pre post, k = pre +:+ "RoleName" +:+ post) →
   T' !! i = Some (VDict (<["ParameterValue" := VStr r]> d))) ∧
  ((∃ pre post, k = pre +:+ "SAMLProviderARN" +:+ post) →
   (¬ ∃ pre post, k = pre +:+ "RoleName" +:+ post) →
   T' !! i = Some (VDict (<["ParameterValue" := p]> d))) ∧
  ((∃ pre post, k = pre +:+ "SAMLProviderARN" +:+ post) →
   (∃ pre post, k = pre +:+ "RoleName" +:+ post) →
   T' !! i = Some (VDict (<["ParameterValue" := VStr r]>
                            (<["ParameterValue" := p]> d))) ∧
   entry_value <$> T' !! i = Some (Some (VStr r))).
Proof.
  intros (T'' & [= <-] & HT)%bind_params_list Hi Hk.
  destruct (Forall2_lookup_l _ _ _ _ _ HT Hi) as (e' & Hi' & He').
  rewrite (bind_param_dict p r d k Hk) in He'. injection He' as <-.
  rewrite Hi'. clear Hi' HT. simpl.
  rewrite <- !str_contains_spec.
  destruct (Py.str_contains "SAMLProviderARN" k),
    (Py.str_contains "RoleName" k); simpl;
    rewrite ?insert_insert_eq; repeat split; try done;
    intros; simpl; by rewrite ?lookup_insert_eq.
Qed.

(** The loop never touches [ParameterKey]: an entry that has a string key
    after the loop had it before. *)
Lemma bind_param_key_inv p r e e' k :
  bind_param p r e = Ok e' → entry_key e' = Some k → entry_key e = Some k.
Proof.
  destruct e as [| | | | | |d]; try done.
  unfold bind_param; simpl.
  destruct (d !! "ParameterKey") as [key|] eqn:Hd; [| done]. simpl.
  destruct (Py.contains "SAMLProviderARN" key) as [[]|]; [| | done]; simpl;
    rewrite ?lookup_insert_ne by done; rewrite Hd; simpl;
    (destruct (Py.contains "RoleName" key) as [[]|]; [| | done]); simpl;
    intros [= <-]; simpl; rewrite ?lookup_insert_ne by done; by rewrite Hd.
Qed.

(** After the loop, every entry whose key contains [RoleName] holds the
    role name. *)
Lemma bind_params_role_value loaded p r (T' : list value) e' :
  bind_params loaded p r = Ok (VList T') →
  e' ∈ T' → marked "RoleName" e' → entry_value e' = Some (VStr r).
Proof.
  intros Hb Hin (k & Hk & Hc).
  assert (∃ T, loaded = VList T) as [T ->].
  { destruct loaded as [| | | |s|l|d]; [| | | | | by exists l |]; exfalso.
    all: unfold bind_params in Hb; simpl in Hb; try done.
    all: unfold mbind, outcome_bind in Hb.
    all: match type of Hb with context [mapM ?f ?l] => destruct (mapM f l) end;
      done. }
  apply bind_params_list in Hb as (T'' & [= <-] & HT).
  apply list_elem_of_lookup in Hin as [i Hi].
  destruct (Forall2_lookup_r _ _ _ _ _ HT Hi) as (e & _ & He).
  pose proof (bind_param_key_inv _ _ _ _ _ He Hk) as Hke.
  destruct (bind_param_entry p r e k Hke) as (e'' & He'' & _ & _ & Hrole & _).
  assert (e'' = e') as -> by congruence. by apply Hrole.
Qed.

(** A list with an object lacking [ParameterKey] stops the loop. *)
Lemma bind_params_missing_key (l : list value) (d : gmap string value) p r :
  VDict d ∈ l → d !! "ParameterKey" = None →
  ∃ e, bind_params (VList l) p r = Raise e.
Proof.
  intros Hin Hd.
  destruct (mapM_fails (bind_param p r) l _ _ Hin (bind_param_missing_key p r d Hd))
    as [e He].
  exists e.
  change (bind_params (VList l) p r) with
    (match mapM (bind_param p r) l with
     | Ok T' => Ok (VList T')
     | Raise e => Raise e
     end).
  by rewrite He.
Qed.

(** ** Order in a trace *)

Lemma precedes_nil P Q : precedes P Q [].
Proof. intros [|? pre] ev post Heq; discriminate. Qed.

Lemma precedes_cons (P Q : event → Prop) ev tr :
  ¬ Q ev → P ev ∨ precedes P Q tr → precedes P Q (ev :: tr).
Proof.
  intros HnQ Hor [|ev0 pre] ev' post Heq HQ.
  - injection Heq as -> ->. done.
  - injection Heq as -> ->. destruct Hor as [HP|Hpre].
    + by apply Exists_cons_hd.
    + apply Exists_cons_tl. by eapply Hpre.
Qed.

(** ** Running [main]

    [main] makes each of its calls at most once, so a run is settled by
    the answers of the collaborators; [run_cases] follows [main] through
    every answer and leaves, for each path, the result and the trace of
    that path. *)

Ltac class_clash e :=
  solve [ exfalso;
          match goal with
          | H : exn_cls (Exn _ _) = _ |- _ => discriminate H
          | H : exn_cls e = _ ∨ exn_cls e = _ |- _ => destruct H; congruence
          | H : exn_cls e = _, H' : exn_cls e = _ |- _ => congruence
          | H : perform (validate_template _) _ = (Raise e, _),
            Hc : exn_cls e = StackExistsError |- _ =>
              exact (validate_template_raises _ _ _ _ H Hc)
          end ].

Ltac run_step H :=
  first
    [ progress (cbn [fst snd world trace parameters start] in H)
    | match type of H with
      | context [perform ?c ?w] =>
          let a := fresh "answer" in
          let e := fresh "e" in
          let w' := fresh "w" in
          let E := fresh "Hcall" in
          destruct (perform c w) as [[a|e] w'] eqn:E
      | context [decide (exn_cls ?e = ?c)] =>
          let Hc := fresh "Hcls" in
          destruct (decide (exn_cls e = c)) as [Hc|Hc];
          [ try class_clash e | ]
      | context [bind_params ?a ?b ?c] =>
          let E := fresh "Hbind" in
          let e := fresh "e" in
          destruct (bind_params a b c) as [?|e] eqn:E;
          [ | pose proof (bind_params_raises _ _ _ _ E) ]
      | context [Py.getitem ?a ?b] =>
          let E := fresh "Hget" in
          let e := fresh "e" in
          destruct (Py.getitem a b) as [?|e] eqn:E;
          [ | pose proof (getitem_raises _ _ _ E) ]
      | context [Args.params_file ?a] =>
          let E := fresh "Hfile" in
          destruct (Args.params_file a) eqn:E
      end
    | progress (simpl in H) ].

Ltac run_cases args w :=
  unfold events, result, run in *;
  let res := fresh "res" in
  let st := fresh "st" in
  let Hrun := fresh "Hrun" in
  destruct (main args (start w)) as [res st] eqn:Hrun;
  unfold main in Hrun;
  cbv [mbind M_bind mret M_ret try_except invoke log process_params raise
         lift assign_parameters read_parameters levelno] in Hrun;
  repeat run_step Hrun;
  injection Hrun as <- <-;
  cbn [fst snd world trace parameters] in *.

(** [x ∈ l] for a list [l] written out: one case for each element [x]
    can be. *)
Ltac elem_cases H :=
  repeat (apply elem_of_cons in H as [H|H]; [try discriminate H |]);
  try (apply elem_of_nil in H; destruct H).

(** [l = before ++ suffix] for lists written out. *)
Ltac split_at_suffix :=
  lazymatch goal with
  | |- ∃ before, ?l = before ++ ?suffix =>
      let n := eval cbv [length Nat.sub] in (length l - length suffix) in
      exists (take n l); reflexivity
  end.

(** [l = before ++ middle ++ after] for lists written out, the length of
    [before] being searched from [n] on. *)
Ltac split_around n :=
  first
    [ lazymatch goal with
      | |- ∃ before, ∃ x, ∃ after, ?l = _ ∧ _ =>
          exists (take n l); eexists; eexists; split; [reflexivity |]
      end
    | lazymatch n with
      | 20 => fail
      | _ => split_around (S n)
      end ].

(** [x ∈ l] for a list [l] written out and an [x] that is there. *)
Ltac elem_now :=
  solve [ repeat first [ apply list_elem_of_here | apply list_elem_of_further ] ].

Ltac precedes_now :=
  repeat first
    [ apply precedes_nil
    | apply precedes_cons;
      [ simpl; tauto | first [ left; simpl; reflexivity | right ] ] ].

Ltac use_getitem :=
  unfold role_arn; cbn [mbind outcome_bind];
  repeat match goal with
         | H : Py.getitem _ _ = _ |- _ => rewrite H; cbn [mbind outcome_bind]
         end.

Lemma manifest_not_emitted_iff tr :
  ¬ manifest_emitted tr ↔ ∀ text, manifest_record text ∉ tr.
Proof. unfold manifest_emitted. naive_solver. Qed.

Section Orchestrator.
Context {W : Type} `{!Collaborators W}.

(** C4.  When the role lookup fails with [RoleNotFoundError], whatever
    came before it, the run ends there: the last two events are the
    failed lookup, made for the role name of the run, and a [WARNING]
    record naming that role; the result of the run is the very
    exception the lookup raised; no manifest has been written. *)
Theorem role_not_found_aborts args (w : W) name e :
  Called (look_up_role name) (Raise e) ∈ events args w →
  exn_cls e = RoleNotFoundError →
  name = Args.role_name args ∧
  result args w = Raise e ∧
  (∃ before,
     events args w =
       before ++ [Called (look_up_role (Args.role_name args)) (Raise e);
                  Logged WARNING "Couldn't find role %s"
                    [VStr (Args.role_name args)]]) ∧
  ¬ manifest_emitted (events args w).
Proof.
  intros Hin Hcls. run_cases args w.
  all: elem_cases Hin; simplify_eq.
  all: try class_clash e.
  all: split_and!; [done | done | split_at_suffix |].
  all: apply manifest_not_emitted_iff; intros text Hm; elem_cases Hm.
Qed.

(** C2.  When [create_stack] fails with [StackExistsError] and the
    [update_stack] that follows fails with [NoUpdateToPerformError], the
    run goes on: right after the failed update come the record announcing
    the role lookup and the lookup itself, for the role name of the run.
    From there on the result of the run is decided by the role lookup and
    the manifest alone (neither of the two errors is the reason the run
    ends): if the role data holds a reference, [generate_ad_role] is
    called with it, and if that returns a blob the run succeeds and its
    last event is the record of the serialised manifest. *)
Theorem no_update_is_convergence args (w : W)
    name template params e1 name' template' params' e2 :
  Called (create_stack name template params) (Raise e1) ∈ events args w →
  exn_cls e1 = StackExistsError →
  Called (update_stack name' template' params') (Raise e2) ∈ events args w →
  exn_cls e2 = NoUpdateToPerformError →
  ∃ before lookup after,
    events args w =
      before ++ [Called (update_stack name' template' params') (Raise e2);
                 Logged INFO "Looking up role ARN..." [];
                 Called (look_up_role (Args.role_name args)) lookup]
             ++ after ∧
    match lookup ≫= role_arn with
    | Raise e => result args w = Raise e
    | Ok trust_role_arn =>
        ∃ saml_provider_arn built,
          Called (generate_ad_role (Args.role_name args)
                    (Args.role_description args)
                    trust_role_arn saml_provider_arn) built ∈ after ∧
          match built with
          | Raise e => result args w = Raise e
          | Ok approles_blob =>
              result args w = Ok () ∧
              last after = Some (manifest_record (Json.dumps approles_blob))
          end
    end.
Proof.
  intros Hc Hc1 Hu Hu2. run_cases args w.
  all: elem_cases Hc; simplify_eq.
  all: elem_cases Hu; simplify_eq.
  all: try class_clash e2.
  all: split_around 0; use_getitem; try done.
  all: eexists _, _; (split; [elem_now | done]).
Qed.

(** C3.  When the registration fails with [SAMLProviderExistsError], the
    run starts with that failure, a record of it, and the lookup of the
    provider by the name of the run.  If the lookup raises, the run ends
    there with that exception.  If it returns a reference, that reference
    is the one every later step uses: the parameters any stack call
    receives are the loaded ones bound with it, and it is what
    [generate_ad_role] is given as the provider reference. *)
Theorem provider_exists_recovery args (w : W) metadata name e :
  Called (add_saml_provider metadata name) (Raise e) ∈ events args w →
  exn_cls e = SAMLProviderExistsError →
  ∃ lookup after,
    events args w =
      [Logged INFO "Adding SAML provider to Account..." [];
       Called (add_saml_provider metadata name) (Raise e);
       Logged INFO "SAML provider %s already exists. Looking up ARN..."
         [VStr (Args.provider_name args)];
       Called (look_up_saml_provider (Args.provider_name args)) lookup]
      ++ after ∧
    match lookup with
    | Raise e' => result args w = Raise e' ∧ after = []
    | Ok saml_provider_arn =>
        ∀ c answer, Called c answer ∈ after →
          match c with
          | create_stack _ _ params | update_stack _ _ params =>
              ∃ path loaded,
                Called (json_load_open path) (Ok loaded) ∈ after ∧
                bind_params loaded saml_provider_arn (Args.role_name args)
                  = Ok params
          | generate_ad_role _ _ _ reference => reference = saml_provider_arn
          | _ => True
          end
    end.
Proof.
  intros Hin Hcls. run_cases args w.
  all: elem_cases Hin; simplify_eq.
  all: try class_clash e.
  all: eexists _, _; (split; [reflexivity |]); simpl; try done.
  all: intros c ans Hc; elem_cases Hc; simplify_eq; try done.
  all: eexists _, _; (split; [elem_now | done]).
Qed.

(** C5.  With a [validate_template] that keeps to its contract, in every
    run each [create_stack] or [update_stack] call comes after a
    successful [validate_template] of the template of the run; and when
    the validation fails, the run ends there with the exception of the
    validation, no stack call having been made. *)
Theorem validation_precedes_mutation `{!ValidateContract W} args (w : W) :
  precedes (is_validation_of (Args.template_path args)) is_stack_mutation
    (events args w) ∧
  ∀ path e,
    Called (validate_template path) (Raise e) ∈ events args w →
    result args w = Raise e ∧
    (∃ before,
       events args w = before ++ [Called (validate_template path) (Raise e)]) ∧
    Forall (fun ev => ¬ is_stack_mutation ev) (events args w).
Proof.
  run_cases args w.
  all: split; [precedes_now |].
  all: intros path e' Hin; elem_cases Hin; simplify_eq.
  all: split_and!; [done | split_at_suffix | repeat constructor; simpl; tauto].
Qed.

(** C8.  When the parameters file holds a list with an object that has no
    [ParameterKey], the loop of [process_params] raises ([KeyError], or
    [TypeError] if an earlier entry is not of the expected shape), and
    that exception is the result of the run: the read of the file is the
    last event, so no handler took over, no stack call was made and no
    manifest was written. *)
Theorem missing_key_aborts args (w : W) path (l : list value)
    (d : gmap string value) :
  Called (json_load_open path) (Ok (VList l)) ∈ events args w →
  VDict d ∈ l →
  d !! "ParameterKey" = None →
  ∃ saml_provider_arn e,
    bind_params (VList l) saml_provider_arn (Args.role_name args) = Raise e ∧
    (exn_cls e = KeyError ∨ exn_cls e = TypeError) ∧
    result args w = Raise e ∧
    (∃ before,
       events args w = before ++ [Called (json_load_open path) (Ok (VList l))]) ∧
    ¬ manifest_emitted (events args w).
Proof.
  intros Hin Hd Hk. run_cases args w.
  all: elem_cases Hin; simplify_eq.
  all: try match goal with
           | H : bind_params (VList ?l') ?p ?r = Ok _, H' : VDict ?d' ∈ ?l',
             H'' : ?d' !! "ParameterKey" = None |- _ =>
               exfalso;
               destruct (bind_params_missing_key l' d' p r H' H'') as [? ?];
               congruence
           end.
  all: eexists _, _; split_and!; [eassumption | done | done | split_at_suffix |].
  all: apply manifest_not_emitted_iff; intros text Hm; elem_cases Hm.
Qed.

(** The blob of the builder holds the role name it was given. *)
Lemma manifest_with_role_name more role_name role_description
    trust_role_arn saml_provider_arn :
  Py.getitem (manifest_with more role_name role_description
                trust_role_arn saml_provider_arn) "roleName"
  = Ok (VStr role_name).
Proof. unfold manifest_with. cbn [Py.getitem]. by rewrite lookup_insert_eq. Qed.

(** C10.  In a successful run, with the manifest builder of the spec, the
    role name of the arguments is the one value used throughout: the
    parameters given to the stack call are the loaded ones bound with it,
    so that every entry of them whose key contains [RoleName] holds it;
    the role looked up is the role of that name; and [generate_ad_role]
    is called with it, so that the manifest written at the end of the run
    records it as [roleName]. *)
Theorem role_name_is_consistent `{!SpecManifest W} args (w : W) :
  result args w = Ok () →
  ∃ path loaded saml_provider_arn params role_data trust_role_arn approles_blob,
    Called (json_load_open path) (Ok loaded) ∈ events args w ∧
    bind_params loaded saml_provider_arn (Args.role_name args) = Ok params ∧
    (∀ T' e', params = VList T' → e' ∈ T' → marked "RoleName" e' →
       entry_value e' = Some (VStr (Args.role_name args))) ∧
    (∃ answer,
       Called (create_stack (Args.stack_name args) (Args.template_path args)
                 params) answer ∈ events args w ∨
       Called (update_stack (Args.stack_name args) (Args.template_path args)
                 params) answer ∈ events args w) ∧
    Called (look_up_role (Args.role_name args)) (Ok role_data) ∈ events args w ∧
    Called (generate_ad_role (Args.role_name args) (Args.role_description args)
              trust_role_arn saml_provider_arn) (Ok approles_blob)
      ∈ events args w ∧
    Py.getitem approles_blob "roleName" = Ok (VStr (Args.role_name args)) ∧
    last (events args w) = Some (manifest_record (Json.dumps approles_blob)).
Proof.
  intros Hok. destruct generate_ad_role_spec as [more_fields Hspec].
  run_cases args w.
  all: try discriminate Hok.
  all: match goal with
       | H : perform (generate_ad_role _ _ _ _) _ = _ |- _ =>
           rewrite Hspec in H; injection H as <- <-
       end.
  all: eexists _, _, _, _, _, _, _; split_and!;
    [ elem_now | eassumption
    | intros ?? ->; by eapply bind_params_role_value
    | eexists; first [ left; elem_now | right; elem_now ]
    | elem_now | elem_now | apply manifest_with_role_name | reflexivity ].
Qed.

End Orchestrator.

(** ** [json.dumps]: the text of an object *)

Lemma ascii_compare_refl c : Ascii.compare c c = Eq.
Proof. unfold Ascii.compare. apply N.compare_refl. Qed.

Lemma string_compare_le_trans s1 s2 s3 :
  String.compare s1 s2 ≠ Gt → String.compare s2 s3 ≠ Gt →
  String.compare s1 s3 ≠ Gt.
Proof.
  revert s2 s3. induction s1 as [|a s1 IH]; intros [|b s2] [|c s3]; simpl;
    try done.
  destruct (Ascii.compare a b) eqn:Hab; [| | done];
    (destruct (Ascii.compare b c) eqn:Hbc; [| | done]).
  - apply Ascii.compare_eq_iff in Hab as ->. rewrite Hbc. apply IH.
  - apply Ascii.compare_eq_iff in Hab as ->. by rewrite Hbc.
  - apply Ascii.compare_eq_iff in Hbc as <-. by rewrite Hab.
  - intros _ _. unfold Ascii.compare in *.
    apply N.compare_lt_iff in Hab. apply N.compare_lt_iff in Hbc.
    assert ((N_of_ascii a ?= N_of_ascii c)%N = Lt) as ->; [| done].
    apply N.compare_lt_iff. by etrans.
Qed.

Lemma leb_not_gt s1 s2 : String.leb s1 s2 ↔ String.compare s1 s2 ≠ Gt.
Proof. unfold String.leb. by destruct (String.compare s1 s2). Qed.

#[local] Instance item_le_trans {A} : Transitive (@Json.item_le A).
Proof.
  intros x y z. unfold Json.item_le. rewrite !leb_not_gt.
  apply string_compare_le_trans.
Qed.

#[local] Instance item_le_total {A} : Total (@Json.item_le A).
Proof.
  intros x y. unfold Json.item_le.
  destruct (String.leb_total x.1 y.1) as [H|H]; rewrite H; [by left | by right].
Qed.

Lemma sorted_items_perm {A} (d : gmap string A) :
  Json.sorted_items d ≡ₚ map_to_list d.
Proof. apply merge_sort_Permutation. Qed.

(** Items with distinct keys have one sorted arrangement. *)
Lemma sorted_unique {A} (l1 l2 : list (string * A)) :
  NoDup l1.*1 →
  StronglySorted Json.item_le l1 → StronglySorted Json.item_le l2 →
  l1 ≡ₚ l2 → l1 = l2.
Proof.
  intros Hnd Hs1 Hs2 Hp.
  apply (StronglySorted_unique_strong Json.item_le); [| done | done | done].
  intros x1 x2 H1 H2 H12 H21. rewrite <- Hp in H2.
  assert (x1.1 = x2.1) as Hk.
  { unfold Json.item_le in *. apply String.leb_antisym; by apply Is_true_true. }
  apply list_elem_of_lookup in H1 as [i Hi], H2 as [j Hj].
  assert (i = j) as ->.
  { eapply NoDup_lookup; [exact Hnd | |]; rewrite list_lookup_fmap.
    - by rewrite Hi.
    - rewrite Hj. simpl. by rewrite Hk. }
  congruence.
Qed.

(** [sorted] takes the items of a dict in whatever order the dict holds
    them. *)
Lemma sorted_items_any_order {A} (d : gmap string A) (items : list (string * A)) :
  items ≡ₚ map_to_list d →
  merge_sort Json.item_le items = Json.sorted_items d.
Proof.
  intros Hp. apply sorted_unique.
  - rewrite merge_sort_Permutation, Hp. apply NoDup_fst_map_to_list.
  - apply (StronglySorted_merge_sort _).
  - apply (StronglySorted_merge_sort _).
  - unfold Json.sorted_items. by rewrite !merge_sort_Permutation.
Qed.

Lemma sorted_items_fmap {A B} (f : A → B) (d : gmap string A) :
  Json.sorted_items (f <$> d) = prod_map id f <$> Json.sorted_items d.
Proof.
  symmetry. apply sorted_unique.
  - rewrite <- list_fmap_compose.
    rewrite (list_fmap_ext _ fst (Json.sorted_items d)) by done.
    rewrite sorted_items_perm. apply NoDup_fst_map_to_list.
  - pose proof (StronglySorted_merge_sort (@Json.item_le A) (map_to_list d)) as Hs.
    fold (Json.sorted_items d) in Hs.
    induction Hs as [|x l _ IH Hx]; [constructor |].
    rewrite fmap_cons. constructor; [exact IH |].
    apply Forall_fmap. eapply Forall_impl; [exact Hx |]. by intros [??].
  - apply (StronglySorted_merge_sort _).
  - rewrite !sorted_items_perm. by rewrite map_to_list_fmap.
Qed.

(** The keys are written in strictly increasing order. *)
Lemma sorted_items_keys_sorted {A} (d : gmap string A) :
  StronglySorted (fun k1 k2 => String.ltb k1 k2 = true) (Json.sorted_items d).*1.
Proof.
  assert (NoDup (Json.sorted_items d).*1) as Hnd.
  { rewrite sorted_items_perm. apply NoDup_fst_map_to_list. }
  pose proof (StronglySorted_merge_sort (@Json.item_le A) (map_to_list d)) as Hs.
  fold (Json.sorted_items d) in Hs.
  induction Hs as [|x l _ IH Hx]; simpl; [constructor |].
  apply NoDup_cons in Hnd as [Hx' Hnd].
  constructor; [by apply IH |].
  apply Forall_fmap, Forall_forall. intros y Hy. simpl.
  pose proof (proj1 (Forall_forall _ _) Hx y Hy) as Hle.
  unfold Json.item_le, String.leb in Hle. unfold String.ltb.
  destruct (String.compare x.1 y.1) eqn:Hc; [| done | done].
  apply String.compare_eq_iff in Hc. destruct Hx'.
  rewrite Hc. apply list_elem_of_fmap. by exists y.
Qed.

Lemma append_assoc (s1 s2 s3 : string) :
  s1 +:+ (s2 +:+ s3) = (s1 +:+ s2) +:+ s3.
Proof.
  induction s1 as [|c s1 IH]; [done |].
  change (String c (s1 +:+ (s2 +:+ s3)) = String c ((s1 +:+ s2) +:+ s3)).
  by f_equal.
Qed.

(** A separator that ends with the prefix of every chunk is the plain
    separator between the prefixed chunks. *)
Lemma concat_prefixed (sep pre : string) (chunks : list string) :
  chunks ≠ [] →
  pre +:+ String.concat (sep +:+ pre) chunks
  = String.concat sep ((fun c => pre +:+ c) <$> chunks).
Proof.
  induction chunks as [|x [|y l] IH]; intros Hne; [done | done |].
  change ((fun c => pre +:+ c) <$> x :: y :: l)
    with ((pre +:+ x) :: ((fun c => pre +:+ c) <$> y :: l)).
  change (String.concat (sep +:+ pre) (x :: y :: l))
    with (x +:+ (sep +:+ pre) +:+ String.concat (sep +:+ pre) (y :: l)).
  change (String.concat sep ((pre +:+ x) :: ((fun c => pre +:+ c) <$> y :: l)))
    with ((pre +:+ x) +:+ sep
            +:+ String.concat sep ((fun c => pre +:+ c) <$> y :: l)).
  rewrite <- IH by done. by rewrite !append_assoc.
Qed.

(** The text [dumps] writes for a non-empty object, character by
    character: an opening brace; then, for each item of the object, the
    items being in strictly increasing order of their keys, a line
    indented by four spaces with the key between quotes, a colon, a space
    and the value, the lines being separated by commas; then a closing
    brace on a line of its own.  The items are what sorting gives from
    any order the object may hold them in. *)
Theorem dumps_object_text (d : gmap string value) :
  d ≠ ∅ →
  ∃ items,
    items ≡ₚ map_to_list d ∧
    StronglySorted (fun k1 k2 => String.ltb k1 k2 = true) items.*1 ∧
    (∀ listing, listing ≡ₚ map_to_list d →
       merge_sort Json.item_le listing = items) ∧
    Json.dumps (VDict d) =
      "{" +:+ String.concat ","
                ((fun kv => String "010" "    "
                              +:+ Json.encode_basestring_ascii kv.1 +:+ ": "
                              +:+ Json.encode 1 kv.2)
                   <$> items)
          +:+ String "010" "}".
Proof.
  intros Hne. exists (Json.sorted_items d).
  split; [apply sorted_items_perm |].
  split; [apply sorted_items_keys_sorted |].
  split; [apply sorted_items_any_order |].
  unfold Json.dumps.
  change (Json.encode 0 (VDict d)) with
    (match Json.sorted_items (Json.encode 1 <$> d) with
     | [] => "{}"
     | items => "{" +:+ Json.encode_body 0 (Json.encode_item <$> items) +:+ "}"
     end).
  rewrite sorted_items_fmap.
  assert (Json.sorted_items d ≠ []) as Hitems.
  { intros Hnil. pose proof (sorted_items_perm d) as Hp.
    rewrite Hnil in Hp. symmetry in Hp. apply Permutation_nil_r in Hp.
    by apply map_to_list_empty_iff in Hp. }
  generalize dependent (Json.sorted_items d). clear. intros items Hitems.
  destruct (prod_map id (Json.encode 1) <$> items) as [|j l] eqn:Hj.
  { by destruct items. }
  rewrite <- Hj. clear Hj. unfold Json.encode_body.
  change (Json.newline_indent 1) with (String "010" "    ").
  change (Json.newline_indent 0) with (String "010" "").
  f_equal. rewrite (append_assoc (String "010" "    ")).
  rewrite concat_prefixed; [| by destruct items].
  rewrite <- !list_fmap_compose.
  rewrite <- append_assoc. by do 2 f_equal.
Qed.

(** A plain [str] is written as it is, between quotes. *)
Lemma encode_basestring_ascii_plain (s : string) :
  plain s = true →
  Json.encode_basestring_ascii s = String "034" (s +:+ String "034" "").
Proof.
  intros Hp. unfold Json.encode_basestring_ascii.
  change (String "034" (String.concat "" (Json.escape <$> Py.code_points s))
            +:+ String "034" "")
    with (String "034" (String.concat "" (Json.escape <$> Py.code_points s)
            +:+ String "034" "")).
  f_equal. f_equal. unfold Py.code_points, plain in *.
  induction s as [|c s IH]; [done |].
  cbn [list_ascii_of_string forallb fmap list_fmap] in *.
  apply andb_prop in Hp as [Hc Hp]. specialize (IH Hp).
  repeat (apply andb_prop in Hc as [Hc ?]).
  cbn [Py.code_points_from].
  assert ((N_of_ascii c <? 128)%N = true) as -> by (apply N.ltb_lt; apply N.leb_le in H1; lia).
  rewrite fmap_cons.
  assert (Json.escape (N_of_ascii c) = String c "") as ->.
  { unfold Json.escape.
    apply negb_true_iff in H, H0. rewrite H, H0.
    apply N.leb_le in Hc, H1.
    repeat match goal with
           | |- context [(?n =? ?k)%N] =>
               destruct (N.eqb_spec n k); [lia |]
           end.
    rewrite (proj2 (N.leb_le _ _) Hc), (proj2 (N.leb_le _ _) H1). simpl.
    by rewrite ascii_N_embedding. }
  destruct (Json.escape <$> _) as [|x l] eqn:Hl.
  - simpl in *. by rewrite <- IH.
  - change (String.concat "" (String c "" :: x :: l))
      with (String c "" +:+ "" +:+ String.concat "" (x :: l)).
    rewrite IH. done.
Qed.

(** ** The manifest of a run *)

(** With a builder that is a function of its four inputs and leaves the
    world as it was, what the builder returned in a run and the text the
    run writes are fixed by the four inputs. *)
Lemma manifest_of_run {W : Type} `{!Collaborators W}
    (more_fields : string → string → value → value → gmap string value)
    args (w : W) role_name role_description trust_role_arn saml_provider_arn
    built text :
  (∀ role_name role_description trust_role_arn saml_provider_arn (w : W),
     perform (generate_ad_role role_name role_description
                trust_role_arn saml_provider_arn) w
     = (Ok (manifest_with
              (more_fields role_name role_description
                 trust_role_arn saml_provider_arn)
              role_name role_description trust_role_arn saml_provider_arn),
        w)) →
  Called (generate_ad_role role_name role_description
            trust_role_arn saml_provider_arn) built ∈ events args w →
  manifest_record text ∈ events args w →
  built = Ok (manifest_with
                (more_fields role_name role_description
                   trust_role_arn saml_provider_arn)
                role_name role_description trust_role_arn saml_provider_arn) ∧
  text = Json.dumps
           (manifest_with
              (more_fields role_name role_description
                 trust_role_arn saml_provider_arn)
              role_name role_description trust_role_arn saml_provider_arn).
Proof.
  intros Hspec Hc Hm. run_cases args w.
  all: elem_cases Hm.
  all: elem_cases Hc.
  all: match goal with
       | H : perform (generate_ad_role _ _ _ _) _ = _ |- _ =>
           rewrite Hspec in H
       end.
  all: unfold manifest_record in *.
  all: simplify_eq.
  all: split; reflexivity.
Qed.

(** C6.  With the manifest builder of the spec, two runs, on whatever
    accounts and with whatever else differing on their command lines,
    that give the builder the same role name, role description,
    trust-role reference and provider reference write the very same
    text.  That text is, character by character: an opening brace; one
    line for each field of the blob, indented by four spaces, with the
    key between quotes, a colon, a space and the value, the lines
    separated by commas and in strictly increasing order of their keys;
    a closing brace on a line of its own.  The fields are those of the
    blob, the four of the spec among them, and their order in the text is
    what sorting gives from any order the blob may hold them in.  A plain
    key, such as the four of the spec, is written as it is. *)
Theorem manifest_is_deterministic {W : Type}
    `{!Collaborators W, !SpecManifest W}
    args1 (w1 : W) args2 (w2 : W)
    role_name role_description trust_role_arn saml_provider_arn
    built1 built2 text1 text2 :
  Called (generate_ad_role role_name role_description
            trust_role_arn saml_provider_arn) built1 ∈ events args1 w1 →
  Called (generate_ad_role role_name role_description
            trust_role_arn saml_provider_arn) built2 ∈ events args2 w2 →
  manifest_record text1 ∈ events args1 w1 →
  manifest_record text2 ∈ events args2 w2 →
  text1 = text2 ∧
  (∃ (fields : gmap string value) (items : list (string * value)),
     built1 = Ok (VDict fields) ∧
     fields !! "roleName" = Some (VStr role_name) ∧
     fields !! "roleDescription" = Some (VStr role_description) ∧
     fields !! "trustReference" = Some trust_role_arn ∧
     fields !! "providerReference" = Some saml_provider_arn ∧
     items ≡ₚ map_to_list fields ∧
     StronglySorted (fun k1 k2 => String.ltb k1 k2 = true) items.*1 ∧
     (∀ listing, listing ≡ₚ map_to_list fields →
        merge_sort Json.item_le listing = items) ∧
     text1 =
       "{" +:+ String.concat ","
                 ((fun kv => String "010" "    "
                               +:+ Json.encode_basestring_ascii kv.1 +:+ ": "
                               +:+ Json.encode 1 kv.2)
                    <$> items)
           +:+ String "010" "}") ∧
  (∀ key, plain key = true →
     Json.encode_basestring_ascii key
     = String "034" (key +:+ String "034" "")) ∧
  Forall (fun key => plain key = true)
    ["roleName"; "roleDescription"; "trustReference"; "providerReference"].
Proof.
  intros Hc1 Hc2 Hm1 Hm2.
  destruct generate_ad_role_spec as [more_fields Hspec].
  destruct (manifest_of_run more_fields _ _ _ _ _ _ _ _ Hspec Hc1 Hm1)
    as [-> ->].
  destruct (manifest_of_run more_fields _ _ _ _ _ _ _ _ Hspec Hc2 Hm2)
    as [-> ->].
  split; [reflexivity |]. split; [| split].
  - generalize (more_fields role_name role_description
                  trust_role_arn saml_provider_arn).
    intros more. unfold manifest_with.
    destruct (dumps_object_text
                (<["roleName" := VStr role_name]>
                   (<["roleDescription" := VStr role_description]>
                      (<["trustReference" := trust_role_arn]>
                         (<["providerReference" := saml_provider_arn]> more)))))
      as (items & Hperm & Hsorted & Horder & Htext).
    { intros Hempty. apply (f_equal (fun m => m !! "roleName")) in Hempty.
      by rewrite lookup_insert_eq, lookup_empty in Hempty. }
    eexists _, items. split_and!; [reflexivity | | | | | done..].
    + by rewrite lookup_insert_eq.
    + rewrite lookup_insert_ne by done. by rewrite lookup_insert_eq.
    + do 2 rewrite lookup_insert_ne by done. by rewrite lookup_insert_eq.
    + do 3 rewrite lookup_insert_ne by done. by rewrite lookup_insert_eq.
  - exact encode_basestring_ascii_plain.
  - repeat constructor.
Qed.

(** ** The command line *)

(** [-p] is the one optional argument declared without [default=]. *)
Lemma params_file_has_no_default :
  ¬ (∀ a, a ∈ __parser__ → Argparse.required a = false → has_default a).
Proof.
  intros Hall.
  destruct (Hall (Argparse.add_argument "-p --cfn_parameters" false
                    "path to cloudformation parameters file" "params_file" None))
    as [v Hv]; [| done | discriminate Hv].
  unfold __parser__. do 3 apply list_elem_of_further. apply list_elem_of_here.
Qed.


(** Without the help flag the parse succeeds when the options are known
    ones and the two required ones are among them. *)
Lemma parse_args_no_help (supplied : gmap string string) :
  supplied !! "help" = None →
  Argparse.parse_args __parser__ supplied =
    if bool_decide (dom supplied ⊆ list_to_set (Argparse.dest <$> __parser__))
       && bool_decide (is_Some (supplied !! "saml_metadata"))
       && bool_decide (is_Some (supplied !! "template_path"))
    then Ok ((Some <$> supplied) ∪ Argparse.defaults __parser__)
    else Raise (Exn SystemExit "2").
Proof.
  intros Hh. unfold Argparse.parse_args.
  assert (existsb (fun a => negb (Argparse.stores a)
                        && bool_decide (is_Some (supplied !! Argparse.dest a)))
            __parser__ = false) as ->.
  { unfold __parser__.
    cbn [existsb Argparse.stores Argparse.act Argparse.help_argument
           Argparse.add_argument Argparse.dest negb andb orb].
    rewrite Hh. by rewrite bool_decide_eq_false_2 by (by intros [? ?]). }
  assert (forallb (fun a => implb (Argparse.required a)
                     (bool_decide (is_Some (supplied !! Argparse.dest a))))
            __parser__
          = bool_decide (is_Some (supplied !! "saml_metadata"))
            && bool_decide (is_Some (supplied !! "template_path"))) as ->.
  { unfold __parser__.
    cbn [forallb Argparse.required Argparse.dest Argparse.help_argument
           Argparse.add_argument implb andb].
    by rewrite !andb_true_r. }
  by rewrite andb_assoc.
Qed.

(** The command line as the code has it.  The required arguments are
    exactly the metadata document and the template.  The five other
    arguments that store a value are optional: the parser accepts a
    command line without them as soon as the two required ones are there.
    Four of them have a default string; the parameters file has none, and
    is [None] in the namespace when it is not supplied. *)
Lemma command_line_surface :
  Argparse.dest <$> List.filter Argparse.required __parser__
    = ["saml_metadata"; "template_path"] ∧
  (fun a => (Argparse.dest a, Argparse.default a))
    <$> List.filter (fun a => Argparse.stores a && negb (Argparse.required a))
          __parser__
    = [("params_file", None);
       ("stack_name", Some "federated-trust-role-and-policy");
       ("provider_name", Some "new_saml_provider");
       ("role_name", Some "new_saml_role");
       ("role_description", Some "A role created by")] ∧
  (∀ supplied : gmap string string,
     dom supplied ⊆ list_to_set (Argparse.dest <$> __parser__) →
     supplied !! "help" = None →
     (∃ ns, Argparse.parse_args __parser__ supplied = Ok ns) ↔
     is_Some (supplied !! "saml_metadata") ∧
     is_Some (supplied !! "template_path")) ∧
  (∀ metadata template,
     args_of <$> Argparse.parse_args __parser__
       (<["saml_metadata" := metadata]> (<["template_path" := template]> ∅))
     = Ok (Args.Make metadata template None
             "federated-trust-role-and-policy" "new_saml_provider"
             "new_saml_role" "A role created by")).
Proof.
  split_and!.
  - reflexivity.
  - reflexivity.
  - intros supplied Hdom Hh. rewrite (parse_args_no_help _ Hh).
    rewrite (bool_decide_eq_true_2 _ Hdom).
    destruct (supplied !! "saml_metadata") as [m|];
      destruct (supplied !! "template_path") as [t|]; simpl.
    + split; [intros _ | intros _; eexists]; eauto.
    + split; [intros [? ?]; done | intros [_ [? ?]]; done].
    + split; [intros [? ?]; done | intros [[? ?] _]; done].
    + split; [intros [? ?]; done | intros [[? ?] _]; done].
  - intros metadata template. vm_compute. reflexivity.
Qed.

(** C7, on a command line the code fails on.  The claim has the
    parameters file as an optional input with a default value, as the
    stack name, the provider name, the role name and the role description
    are and have.  The parser does take a command line with the metadata
    document and the template only; but [-p] is declared without
    [default=], so the namespace holds [None] for [params_file], and the
    script, on a fresh account, registers the provider and then fails
    with the [TypeError] of [open(None, 'r')]: the registration is its
    only call, and the account is left with the provider and no stack. *)
Theorem omitted_params_file_fails :
  let supplied : gmap string string :=
    <["saml_metadata" := "metadata.xml"]> (<["template_path" := "role.yaml"]> ∅) in
  let r := script supplied (start Account.fresh) in
  (∃ ns, Argparse.parse_args __parser__ supplied = Ok ns ∧
         Argparse.attr ns "params_file" = None ∧
         args_of ns = Account.no_file_args) ∧
  r.1 = Raise (Exn TypeError "") ∧
  operations (trace r.2) = [AddSamlProvider] ∧
  Account.providers (world r.2) !! "new_saml_provider"
    = Some (Account.provider_arn "new_saml_provider") ∧
  Account.stacks (world r.2) = Account.stacks Account.fresh.
Proof.
  intros supplied r. split_and!.
  - exists ((Some <$> supplied) ∪ Argparse.defaults __parser__).
    split_and!; vm_compute; reflexivity.
  - vm_compute. reflexivity.
  - vm_compute. reflexivity.
  - vm_compute. reflexivity.
  - vm_compute. reflexivity.
Qed.

(** ** The simulated account: the theorems at work

    Runs of the script on the simulated account: a first run on a fresh
    account, a second run on the account the first one leaves, a run
    after the role was deleted, and runs with a malformed or a missing
    parameters file. *)

Ltac in_trace :=
  vm_compute;
  solve [ repeat first [ apply list_elem_of_here | apply list_elem_of_further ] ].

(** The simulated account keeps the contract of [validate_template] and
    builds the manifest of the spec. *)
Lemma account_keeps_validate_contract : ValidateContract Account.t.
Proof.
  intros path acc acc' e. cbn [perform Account.collaborators Account.respond].
  case_bool_decide; intros [= <- <-]; done.
Qed.

Lemma account_builds_spec_manifest : SpecManifest Account.t.
Proof. exists (fun _ _ _ _ => ∅). intros ? ? ? ? ?. reflexivity. Qed.

Lemma process_params_frame_witness :
  ∃ T',
    (process_params (Some "params.json") (VStr "arn:provider") "role"
       (start Account.fresh)).1 = Ok (VList T') ∧
    length T' = 4.
Proof.
  destruct (process_params_frame "params.json" (VStr "arn:provider") "role"
              Account.template (start Account.fresh) Account.fresh)
    as (T' & Hrun & Hlen & _).
  - vm_compute. reflexivity.
  - repeat constructor; eexists; vm_compute; reflexivity.
  - exists T'. split; [exact Hrun | exact Hlen].
Defined.

Lemma marker_is_substring_witness :
  Account.bound_template !! 2 =
    Some (VDict (<["ParameterValue" := VStr "new_saml_role"]>
                   (<["ParameterKey" := VStr "TrustRoleName"]>
                      (<["ParameterValue" := VStr "old"]> ∅)))).
Proof.
  refine (proj1 (marker_is_substring Account.template Account.bound_template
                   (Account.provider_arn "new_saml_provider") "new_saml_role" 2
                   (<["ParameterKey" := VStr "TrustRoleName"]>
                      (<["ParameterValue" := VStr "old"]> ∅))
                   "TrustRoleName" _ _ _) _).
  - vm_compute. reflexivity.
  - vm_compute. reflexivity.
  - vm_compute. reflexivity.
  - exists "Trust", "". reflexivity.
Defined.

Lemma no_update_is_convergence_witness :
  result Account.args Account.provisioned = Ok ().
Proof.
  destruct (no_update_is_convergence Account.args Account.provisioned
              "federated-trust-role-and-policy" "role.yaml"
              (VList Account.bound_template)
              (Exn StackExistsError "federated-trust-role-and-policy")
              "federated-trust-role-and-policy" "role.yaml"
              (VList Account.bound_template)
              (Exn NoUpdateToPerformError "federated-trust-role-and-policy"))
    as (before & lookup & after & _ & _).
  - in_trace.
  - reflexivity.
  - in_trace.
  - reflexivity.
  - vm_compute. reflexivity.
Defined.

Lemma provider_exists_recovery_witness :
  ∃ lookup,
    Called (look_up_saml_provider "new_saml_provider") lookup
      ∈ events Account.args Account.provisioned.
Proof.
  destruct (provider_exists_recovery Account.args Account.provisioned
              "metadata.xml" "new_saml_provider"
              (Exn SAMLProviderExistsError "new_saml_provider"))
    as (lookup & after & Hev & _).
  - in_trace.
  - reflexivity.
  - exists lookup. rewrite Hev.
    do 3 apply list_elem_of_further. apply list_elem_of_here.
Defined.

Lemma role_not_found_aborts_witness :
  result Account.args Account.role_deleted
    = Raise (Exn RoleNotFoundError "new_saml_role").
Proof.
  refine (proj1 (proj2 (role_not_found_aborts Account.args Account.role_deleted
                          "new_saml_role" (Exn RoleNotFoundError "new_saml_role")
                          _ _))).
  - in_trace.
  - reflexivity.
Defined.

Lemma validation_precedes_mutation_witness :
  precedes (is_validation_of "role.yaml") is_stack_mutation
    (events Account.args Account.provisioned).
Proof.
  refine (proj1 (@validation_precedes_mutation Account.t
                   Account.collaborators _
                   Account.args Account.provisioned)).
  intros path acc acc' e. cbn [perform Account.collaborators Account.respond].
  case_bool_decide; intros [= <- <-]; done.
Defined.

Lemma manifest_is_deterministic_witness :
  Account.last_text (events Account.args Account.fresh)
    = Account.last_text (events Account.args Account.provisioned).
Proof.
  refine (proj1 (@manifest_is_deterministic Account.t
                   Account.collaborators account_builds_spec_manifest
                   Account.args Account.fresh Account.args Account.provisioned
                   "new_saml_role" "A role created by"
                   (VStr "arn:aws:iam::123456789012:role/new_saml_role")
                   (Account.provider_arn "new_saml_provider")
                   (Ok (manifest_blob "new_saml_role" "A role created by"
                          (VStr "arn:aws:iam::123456789012:role/new_saml_role")
                          (Account.provider_arn "new_saml_provider")))
                   (Ok (manifest_blob "new_saml_role" "A role created by"
                          (VStr "arn:aws:iam::123456789012:role/new_saml_role")
                          (Account.provider_arn "new_saml_provider")))
                   _ _ _ _ _ _)).
  - in_trace.
  - in_trace.
  - in_trace.
  - in_trace.
Defined.

Lemma missing_key_aborts_witness :
  ∃ e, result Account.bad_args Account.fresh = Raise e ∧
       (exn_cls e = KeyError ∨ exn_cls e = TypeError).
Proof.
  destruct (missing_key_aborts Account.bad_args Account.fresh "bad.json"
              [Account.param "RoleName" (VStr "");
               VDict (<["ParameterValue" := VStr "x"]> ∅)]
              (<["ParameterValue" := VStr "x"]> ∅))
    as (arn & e & _ & Hcls & Hres & _).
  - in_trace.
  - apply list_elem_of_further, list_elem_of_here.
  - vm_compute. reflexivity.
  - exists e. split; [exact Hres | exact Hcls].
Defined.

Lemma role_name_is_consistent_witness :
  ∃ role_data,
    Called (look_up_role "new_saml_role") (Ok role_data)
      ∈ events Account.args Account.fresh.
Proof.
  destruct (@role_name_is_consistent Account.t Account.collaborators
              account_builds_spec_manifest Account.args Account.fresh)
    as (path & loaded & arn & params & role_data & trust & blob &
        _ & _ & _ & _ & Hrole & _).
  - vm_compute. reflexivity.
  - exists role_data. exact Hrole.
Defined.

(** The contract of [validate_template] is what C5 rests on: [main] calls
    it inside the [try] whose handler updates the stack, so a
    [validate_template] that raised [StackExistsError] would be followed
    by [update_stack] on a template that was never validated. *)
Lemma validate_contract_is_needed :
  ¬ precedes (is_validation_of "role.yaml") is_stack_mutation
      (events Account.args Scripted.stray_validation).
Proof.
  intros Hpre.
  pose proof (Hpre (take 6 (events Account.args Scripted.stray_validation))
                (Called (update_stack "federated-trust-role-and-policy"
                           "role.yaml" (VList [])) (Ok VNone))
                (drop 7 (events Account.args Scripted.stray_validation))
                eq_refl I) as Hex.
  vm_compute in Hex.
  repeat (apply Exists_cons in Hex as [Hex|Hex]; [by destruct Hex |]).
  by apply Exists_nil in Hex.
Qed.

(** ** More on the loop of [process_params] *)

(** The loop body succeeds exactly on an object whose [ParameterKey] is a
    container, and then makes the two assignments the two tests ask for. *)
Lemma bind_param_Ok p r e e' :
  bind_param p r e = Ok e' ↔
  ∃ (d : gmap string value) key has_arn has_role,
    e = VDict d ∧
    d !! "ParameterKey" = Some key ∧
    Py.contains "SAMLProviderARN" key = Ok has_arn ∧
    Py.contains "RoleName" key = Ok has_role ∧
    e' = VDict (let d1 := if has_arn : bool
                          then <["ParameterValue" := p]> d else d in
                if has_role : bool
                then <["ParameterValue" := VStr r]> d1 else d1).
Proof.
  split.
  - destruct e as [| | | | | |d]; try done.
    unfold bind_param; simpl.
    destruct (d !! "ParameterKey") as [key|] eqn:Hd; [| done]. simpl.
    destruct (Py.contains "SAMLProviderARN" key) as [b1|] eqn:H1; [| done].
    simpl. intros H. exists d, key, b1.
    destruct b1; simpl in H; rewrite ?lookup_insert_ne in H by done;
      rewrite Hd in H; simpl in H;
      (destruct (Py.contains "RoleName" key) as [b2|] eqn:H2; [| done]);
      exists b2; destruct b2; simpl in H; by simplify_eq.
  - intros (d & key & b1 & b2 & -> & Hd & H1 & H2 & ->).
    unfold bind_param; simpl. rewrite Hd; simpl. rewrite H1; simpl.
    destruct b1; simpl; rewrite ?lookup_insert_ne by done; rewrite Hd; simpl;
      rewrite H2; simpl; by destruct b2.
Qed.

Lemma bind_param_rebind p r p' r' e e' :
  bind_param p r e = Ok e' → bind_param p' r' e' = bind_param p' r' e.
Proof.
  intros (d & key & b1 & b2 & -> & Hd & H1 & H2 & ->)%bind_param_Ok.
  assert (bind_param p' r' (VDict d) =
          Ok (VDict (let d1 := if b1 then <["ParameterValue" := p']> d else d in
                     if b2 then <["ParameterValue" := VStr r']> d1 else d1)))
    as ->.
  { apply bind_param_Ok. by exists d, key, b1, b2. }
  apply bind_param_Ok.
  eexists _, key, b1, b2. split; [done |].
  split; [| split; [done | split; [done |]]].
  - destruct b1, b2; simpl; by rewrite ?lookup_insert_ne by done.
  - destruct b1, b2; simpl; by rewrite ?insert_insert_eq.
Qed.

Lemma mapM_rebind {A B} (f g : A → outcome B) (h : A → outcome A) l l' :
  (∀ x x', h x = Ok x' → f x' = g x) →
  Forall2 (fun x x' => h x = Ok x') l l' → mapM f l' = mapM g l.
Proof.
  intros Hfg. induction 1 as [|x x' l l' Hx _ IH]; [done |].
  simpl. by rewrite (Hfg _ _ Hx), IH.
Qed.

(** X1.  Binding again overrides the first binding: on parameters that
    the loop has already bound with one provider reference and role name,
    the loop with another pair gives exactly what it gives on the
    parameters as loaded; with the same pair it changes nothing more. *)
Theorem bind_params_rebind loaded p r bound p' r' :
  bind_params loaded p r = Ok bound →
  bind_params bound p' r' = bind_params loaded p' r'.
Proof.
  intros Hb. destruct loaded as [| | | |s|T|d].
  1-5, 7: unfold bind_params in Hb; simpl in Hb; try done;
    unfold mbind, outcome_bind in Hb;
    match type of Hb with context [mapM ?f ?l] => destruct (mapM f l) end;
    by simplify_eq.
  apply bind_params_list in Hb as (T' & -> & HT).
  change (bind_params (VList T') p' r') with
    (match mapM (bind_param p' r') T' with
     | Ok T'' => Ok (VList T'')
     | Raise e => Raise e
     end).
  change (bind_params (VList T) p' r') with
    (match mapM (bind_param p' r') T with
     | Ok T'' => Ok (VList T'')
     | Raise e => Raise e
     end).
  by rewrite (mapM_rebind _ (bind_param p' r') (bind_param p r) T T'
                (fun x x' => bind_param_rebind p r p' r' x x') HT).
Qed.

Lemma bind_params_rebind_witness :
  bind_params (VList Account.bound_template) (VStr "arn:other") "other_role"
  = bind_params Account.parameters_json (VStr "arn:other") "other_role".
Proof.
  apply (bind_params_rebind Account.parameters_json
           (Account.provider_arn "new_saml_provider") "new_saml_role").
  vm_compute. reflexivity.
Defined.

(** A non-empty [str] has a first character. *)
Lemma chars_cons c s : ∃ x rest, Py.chars (String c s) = x :: rest.
Proof.
  unfold Py.chars. cbn [list_ascii_of_string foldr].
  destruct (foldr _ _ (list_ascii_of_string s)) as [pending done].
  cbn [fst snd]. destruct (_ && _); cbn [fst snd]; eauto.
Qed.

(** X2.  A parameters file whose top level is not an array: the loop
    raises [TypeError] on a number, a boolean or null, and on the first
    key of a non-empty object or the first character of a non-empty
    string; an empty object or an empty string goes through unchanged. *)
Theorem bind_params_not_a_list params p r :
  match params with
  | VList _ => True
  | VDict d =>
      bind_params params p r =
        if decide (d = ∅) then Ok params else Raise (Exn TypeError "")
  | VStr s =>
      bind_params params p r =
        if decide (s = "") then Ok params else Raise (Exn TypeError "")
  | _ => bind_params params p r = Raise (Exn TypeError "")
  end.
Proof.
  destruct params as [| | | |s|l|d]; try done.
  - destruct s as [|c s]; [done |]. rewrite decide_False by done.
    unfold bind_params. cbn [Py.iter mbind outcome_bind].
    by destruct (chars_cons c s) as (x & rest & ->).
  - unfold bind_params. cbn [Py.iter mbind outcome_bind].
    destruct (map_to_list d) as [|[k v] kvs] eqn:Hd.
    + apply map_to_list_empty_iff in Hd as ->. by rewrite decide_True.
    + rewrite decide_False; [done |]. intros ->.
      by rewrite map_to_list_empty in Hd.
Qed.

(** X3.  Whatever list the loop accepts, it gives back entry by entry:
    as many entries, each an object with the fields it had, but for
    [ParameterValue], which is what it was, the provider reference or the
    role name. *)
Theorem bind_params_shape (T : list value) p r bound :
  bind_params (VList T) p r = Ok bound →
  ∃ T', bound = VList T' ∧ length T' = length T ∧
    ∀ i e, T !! i = Some e →
      ∃ (d d' : gmap string value),
        e = VDict d ∧ T' !! i = Some (VDict d') ∧
        (∀ field, field ≠ "ParameterValue" → d' !! field = d !! field) ∧
        (d' !! "ParameterValue" = d !! "ParameterValue" ∨
         d' !! "ParameterValue" = Some p ∨
         d' !! "ParameterValue" = Some (VStr r)).
Proof.
  intros (T' & -> & HT)%bind_params_list.
  exists T'. split; [done |]. split; [symmetry; by eapply Forall2_length |].
  intros i e Hi.
  destruct (Forall2_lookup_l _ _ _ _ _ HT Hi) as (e' & Hi' & He').
  apply bind_param_Ok in He' as (d & key & b1 & b2 & -> & _ & _ & _ & ->).
  eexists d, _. split; [done |]. split; [exact Hi' |].
  destruct b1, b2; simpl; split;
    try (intros field Hf; by rewrite ?lookup_insert_ne by done);
    rewrite ?lookup_insert_eq; auto.
Qed.

(** X4.  An entry whose [ParameterKey] is a number, a boolean or null
    stops the loop with an exception: [in] needs a container on its
    right. *)
Theorem bind_params_scalar_key (l : list value) (d : gmap string value) key p r :
  VDict d ∈ l →
  d !! "ParameterKey" = Some key →
  (match key with
   | VStr _ | VList _ | VDict _ => False
   | _ => True
   end) →
  ∃ e, bind_params (VList l) p r = Raise e ∧
       (exn_cls e = KeyError ∨ exn_cls e = TypeError).
Proof.
  intros Hin Hd Hkey.
  assert (bind_param p r (VDict d) = Raise (Exn TypeError "")) as Hfail.
  { unfold bind_param; simpl. rewrite Hd; simpl. by destruct key. }
  destruct (mapM_fails (bind_param p r) l _ _ Hin Hfail) as [e He].
  exists e. split.
  - change (bind_params (VList l) p r) with
      (match mapM (bind_param p r) l with
       | Ok T' => Ok (VList T')
       | Raise e => Raise e
       end).
    by rewrite He.
  - apply mapM_Raise in He as (x & _ & Hx). by eapply bind_param_raises.
Qed.

(** X5.  When [ParameterKey] is a list, the markers are looked for among
    its elements, whole: the entry is overridden when the marker is one
    of the elements, not when an element merely contains it. *)
Theorem bind_param_list_key (d : gmap string value) (keys : list value) p r :
  d !! "ParameterKey" = Some (VList keys) →
  ∃ has_arn has_role : bool,
    (has_arn = true ↔ VStr "SAMLProviderARN" ∈ keys) ∧
    (has_role = true ↔ VStr "RoleName" ∈ keys) ∧
    bind_param p r (VDict d) =
      Ok (VDict
            (let d1 := if has_arn then <["ParameterValue" := p]> d else d in
             if has_role then <["ParameterValue" := VStr r]> d1 else d1)).
Proof.
  intros Hd.
  assert (∀ marker,
            ∃ b : bool, Py.contains marker (VList keys) = Ok b ∧
                        (b = true ↔ VStr marker ∈ keys)) as Hc.
  { intros marker. eexists. split; [reflexivity |].
    rewrite existsb_exists. split.
    - intros (x & Hx%list_elem_of_In & Hm). destruct x; try done.
      by apply bool_decide_eq_true in Hm as ->.
    - intros Hin. exists (VStr marker). split; [by apply list_elem_of_In |].
      by apply bool_decide_eq_true. }
  destruct (Hc "SAMLProviderARN") as (b1 & H1 & Hb1).
  destruct (Hc "RoleName") as (b2 & H2 & Hb2).
  exists b1, b2. split; [done |]. split; [done |].
  apply bind_param_Ok. by exists d, (VList keys), b1, b2.
Qed.

Lemma bind_param_list_key_witness :
  ∃ e', bind_param (VStr "arn") "role"
          (VDict (<["ParameterKey" := VList [VStr "TrustRoleName"]]> ∅)) = Ok e'.
Proof.
  destruct (bind_param_list_key
              (<["ParameterKey" := VList [VStr "TrustRoleName"]]> ∅)
              [VStr "TrustRoleName"] (VStr "arn") "role")
    as (b1 & b2 & _ & _ & Hb).
  - vm_compute. reflexivity.
  - eexists. exact Hb.
Defined.

Lemma bind_params_shape_witness :
  ∃ T', VList Account.bound_template = VList T' ∧ length T' = 4.
Proof.
  destruct (bind_params_shape Account.template
              (Account.provider_arn "new_saml_provider") "new_saml_role"
              (VList Account.bound_template))
    as (T' & HT & Hlen & _).
  - vm_compute. reflexivity.
  - exists T'. split; [exact HT | exact Hlen].
Defined.

Lemma bind_params_scalar_key_witness :
  ∃ e, bind_params (VList [VDict (<["ParameterKey" := VInt 7]> ∅)])
         (VStr "arn") "role" = Raise e.
Proof.
  destruct (bind_params_scalar_key [VDict (<["ParameterKey" := VInt 7]> ∅)]
              (<["ParameterKey" := VInt 7]> ∅) (VInt 7) (VStr "arn") "role")
    as (e & He & _).
  - apply list_elem_of_here.
  - vm_compute. reflexivity.
  - exact I.
  - exists e. exact He.
Defined.

(** ** More on the runs of [main] *)

Ltac precedes_auto :=
  repeat first
    [ apply precedes_nil
    | apply precedes_cons;
      [ solve [ simpl; first [ tauto | discriminate
                             | intros [? ?]; discriminate ] ]
      | first [ left; solve [ simpl; auto ] | right ] ] ].

Ltac at_index i :=
  apply (list_elem_of_lookup_2 _ i); vm_compute; reflexivity.

Section More.
Context {W : Type} `{!Collaborators W}.

(** What every run keeps to, path by path. *)
Lemma run_invariants args (w : W) :
  (precedes (raised_from AddSamlProvider SAMLProviderExistsError)
     (is_call_of LookUpSamlProvider) (events args w) ∧
   precedes (fun ev => returned_from AddSamlProvider ev ∨
                       returned_from LookUpSamlProvider ev)
     (is_call_of JsonLoadOpen) (events args w) ∧
   precedes (returned_from JsonLoadOpen)
     (is_call_of ValidateTemplate) (events args w) ∧
   precedes (returned_from ValidateTemplate)
     (is_call_of CreateStack) (events args w) ∧
   precedes (fun ev => raised_from CreateStack StackExistsError ev ∨
                       raised_from ValidateTemplate StackExistsError ev)
     (is_call_of UpdateStack) (events args w) ∧
   precedes (fun ev => returned_from CreateStack ev ∨
                       returned_from UpdateStack ev ∨
                       raised_from UpdateStack NoUpdateToPerformError ev)
     (is_call_of LookUpRole) (events args w) ∧
   precedes (returned_from LookUpRole)
     (is_call_of GenerateAdRole) (events args w) ∧
   precedes (returned_from GenerateAdRole)
     is_manifest_record (events args w)) ∧
  NoDup (operations (events args w)) ∧
  Forall (made_with args) (events args w) ∧
  Forall not_debug (events args w) ∧
  ∃ params, Forall (carries params) (events args w).
Proof.
  run_cases args w.
  all: split; [split_and!; precedes_auto |].
  all: split; [apply (bool_decide_unpack _); vm_compute; exact I |].
  all: split; [repeat constructor; simpl; auto |].
  all: split; [repeat constructor; simpl; auto |].
  all: first [ match goal with
               | H : bind_params _ _ _ = Ok ?a |- _ => exists a
               end
             | exists VNone ];
    repeat constructor; simpl; auto.
Qed.

Lemma no_params_file_run args (w : W) :
  Args.params_file args = None →
  Forall provider_only (operations (events args w)) ∧
  ∃ e, result args w = Raise e ∧
       (Exists (fun ev => returned_from AddSamlProvider ev ∨
                          returned_from LookUpSamlProvider ev) (events args w) →
        e = Exn TypeError "").
Proof.
  intros Hnone. run_cases args w.
  all: try congruence.
  all: split;
    [ simpl;
      repeat (apply List.Forall_cons; [unfold provider_only; auto |]);
      apply List.Forall_nil |].
  all: eexists; split; [reflexivity |].
  all: intros Hex.
  all: repeat (apply Exists_cons in Hex as [Hex|Hex];
               [simpl in Hex; try tauto |]).
  all: try (apply Exists_nil in Hex; destruct Hex).
  all: reflexivity.
Qed.

Lemma manifest_record_origin args (w : W) text :
  manifest_record text ∈ events args w →
  ∃ saml_provider_arn role_data trust_role_arn approles_blob,
    (Called (add_saml_provider (Args.saml_metadata args)
               (Args.provider_name args)) (Ok saml_provider_arn)
       ∈ events args w ∨
     Called (look_up_saml_provider (Args.provider_name args))
       (Ok saml_provider_arn) ∈ events args w) ∧
    Called (look_up_role (Args.role_name args)) (Ok role_data)
      ∈ events args w ∧
    role_arn role_data = Ok trust_role_arn ∧
    Called (generate_ad_role (Args.role_name args) (Args.role_description args)
              trust_role_arn saml_provider_arn) (Ok approles_blob)
      ∈ events args w ∧
    text = Json.dumps approles_blob.
Proof.
  intros Hm. run_cases args w.
  all: unfold manifest_record in Hm; elem_cases Hm; simplify_eq.
  all: eexists _, _, _, _; split_and!;
    [ first [ left; elem_now | right; elem_now ]
    | elem_now
    | use_getitem; reflexivity
    | elem_now
    | reflexivity ].
Qed.

(** X6.  An exception that no [except] clause of [main] is there for
    ends the run at once: the failed call is the last event and its
    exception is the result of the run, unchanged. *)
Theorem uncaught_exception_ends_run args (w : W) c e :
  Called c (Raise e) ∈ events args w →
  ¬ caught c e →
  result args w = Raise e ∧
  last (events args w) = Some (Called c (Raise e)).
Proof.
  intros Hin Hn. run_cases args w.
  all: elem_cases Hin; simplify_eq.
  all: try (exfalso; apply Hn; assumption).
  all: split; reflexivity.
Qed.

(** X7.  A run succeeds exactly when it writes the manifest: the last
    event of a successful run is the manifest record, and a run that
    wrote a manifest record succeeded. *)
Theorem success_iff_manifest args (w : W) :
  (result args w = Ok () →
   ∃ text, last (events args w) = Some (manifest_record text)) ∧
  (manifest_emitted (events args w) → result args w = Ok ()).
Proof.
  run_cases args w.
  all: split; [intros Hok; try discriminate Hok; eexists; reflexivity |].
  all: intros [text Hm]; elem_cases Hm; reflexivity.
Qed.

(** X8.  The order of the steps.  The provider is looked up only after
    the registration reported it exists; the parameters file is read only
    once a provider reference is there; the template is validated only
    after the file was read; the stack is created only after a successful
    validation, and updated only after [StackExistsError]; the role is
    looked up only after the stack was created, updated or found up to
    date; the manifest is built only after the role was found, and
    written only after it was built. *)
Theorem pipeline_order args (w : W) :
  precedes (raised_from AddSamlProvider SAMLProviderExistsError)
    (is_call_of LookUpSamlProvider) (events args w) ∧
  precedes (fun ev => returned_from AddSamlProvider ev ∨
                      returned_from LookUpSamlProvider ev)
    (is_call_of JsonLoadOpen) (events args w) ∧
  precedes (returned_from JsonLoadOpen)
    (is_call_of ValidateTemplate) (events args w) ∧
  precedes (returned_from ValidateTemplate)
    (is_call_of CreateStack) (events args w) ∧
  precedes (fun ev => raised_from CreateStack StackExistsError ev ∨
                      raised_from ValidateTemplate StackExistsError ev)
    (is_call_of UpdateStack) (events args w) ∧
  precedes (fun ev => returned_from CreateStack ev ∨
                      returned_from UpdateStack ev ∨
                      raised_from UpdateStack NoUpdateToPerformError ev)
    (is_call_of LookUpRole) (events args w) ∧
  precedes (returned_from LookUpRole)
    (is_call_of GenerateAdRole) (events args w) ∧
  precedes (returned_from GenerateAdRole)
    is_manifest_record (events args w).
Proof. apply run_invariants. Qed.

(** X9.  No step is retried: a run calls each collaborator at most
    once. *)
Theorem each_collaborator_called_once args (w : W) :
  NoDup (operations (events args w)).
Proof. apply run_invariants. Qed.

(** X10.  Every call is made with the arguments of the command line: the
    metadata and provider name, the parameters file, the template, the
    stack name, the role name and the role description. *)
Theorem calls_use_arguments args (w : W) c answer :
  Called c answer ∈ events args w → uses_arguments args c.
Proof.
  intros Hin.
  destruct (run_invariants args w) as (_ & _ & Hmade & _).
  exact (proj1 (Forall_forall _ _) Hmade _ Hin).
Qed.

(** X11.  When the stack is both created and updated in a run, the update
    is given the stack name, the template and the parameters the creation
    was given. *)
Theorem update_gets_what_create_got args (w : W)
    name template params answer name' template' params' answer' :
  Called (create_stack name template params) answer ∈ events args w →
  Called (update_stack name' template' params') answer' ∈ events args w →
  name' = name ∧ template' = template ∧ params' = params.
Proof.
  intros Hc Hu.
  destruct (run_invariants args w) as (_ & _ & Hmade & _ & ps & Hps).
  pose proof (proj1 (Forall_forall _ _) Hmade _ Hc) as [-> ->].
  pose proof (proj1 (Forall_forall _ _) Hmade _ Hu) as [-> ->].
  pose proof (proj1 (Forall_forall _ _) Hps _ Hc) as Hp.
  pose proof (proj1 (Forall_forall _ _) Hps _ Hu) as Hp'.
  simpl in Hp, Hp'. by subst.
Qed.

(** X12.  The console shows records of level [INFO] and [WARNING] only:
    the [debug] records of [main] and [process_params] are below the
    level [setup_logger] sets. *)
Theorem no_debug_record args (w : W) lvl msg values :
  Logged lvl msg values ∈ events args w → lvl = INFO ∨ lvl = WARNING.
Proof.
  intros Hin.
  destruct (run_invariants args w) as (_ & _ & _ & Hlvl & _).
  pose proof (proj1 (Forall_forall _ _) Hlvl _ Hin) as Hl.
  destruct lvl; simpl in Hl; auto. done.
Qed.

(** X13.  Without a parameters file the run fails before it reads,
    validates or reconciles anything: the only calls are those for the
    provider, and once the provider reference is there the result is the
    [TypeError] of [open(None, 'r')]. *)
Theorem no_params_file_stops_run args (w : W) :
  Args.params_file args = None →
  Forall provider_only (operations (events args w)) ∧
  ∃ e, result args w = Raise e ∧
       (Exists (fun ev => returned_from AddSamlProvider ev ∨
                          returned_from LookUpSamlProvider ev) (events args w) →
        e = Exn TypeError "").
Proof. apply no_params_file_run. Qed.

(** X14.  Where the manifest comes from: the text written is the
    serialisation of the blob [generate_ad_role] returned, called with
    the role name and description of the command line, the [Arn] of the
    [Role] in the data of the role looked up, and the provider reference
    the registration or the lookup returned.  When the blob is an object
    the text is, character by character: a pair of braces for the empty
    object; else an opening brace, one line for each item of the object,
    indented by four spaces, with the key between quotes, a colon, a space
    and the value, the lines separated by commas and in strictly
    increasing order of their keys, and a closing brace on a line of its
    own. *)
Theorem manifest_is_dumps_of_blob args (w : W) text :
  manifest_record text ∈ events args w →
  ∃ saml_provider_arn role_data trust_role_arn approles_blob,
    (Called (add_saml_provider (Args.saml_metadata args)
               (Args.provider_name args)) (Ok saml_provider_arn)
       ∈ events args w ∨
     Called (look_up_saml_provider (Args.provider_name args))
       (Ok saml_provider_arn) ∈ events args w) ∧
    Called (look_up_role (Args.role_name args)) (Ok role_data)
      ∈ events args w ∧
    role_arn role_data = Ok trust_role_arn ∧
    Called (generate_ad_role (Args.role_name args) (Args.role_description args)
              trust_role_arn saml_provider_arn) (Ok approles_blob)
      ∈ events args w ∧
    text = Json.dumps approles_blob ∧
    (approles_blob = VDict ∅ → text = "{}") ∧
    ∀ d : gmap string value, approles_blob = VDict d → d ≠ ∅ →
      ∃ items : list (string * value),
        items ≡ₚ map_to_list d ∧
        StronglySorted (fun k1 k2 => String.ltb k1 k2 = true) items.*1 ∧
        text =
          "{" +:+ String.concat ","
                    ((fun kv => String "010" "    "
                                  +:+ Json.encode_basestring_ascii kv.1 +:+ ": "
                                  +:+ Json.encode 1 kv.2)
                       <$> items)
              +:+ String "010" "}".
Proof.
  intros Hm.
  destruct (manifest_record_origin args w text Hm)
    as (arn & role_data & trust & blob & H1 & H2 & H3 & H4 & H5).
  exists arn, role_data, trust, blob. split_and!; try done.
  - intros ->. rewrite H5. vm_compute. reflexivity.
  - intros d -> Hne.
    destruct (dumps_object_text d Hne) as (items & Hp & Hs & _ & Ht).
    exists items. by rewrite H5.
Qed.


(** X16.  With the two required options and nothing else the script
    fails: it runs [main] with the defaults, hence without a parameters
    file, and makes no call but those for the provider. *)
Theorem script_with_required_options_only metadata template (w : W) :
  let r := script (<["saml_metadata" := metadata]>
                     (<["template_path" := template]> ∅)) (start w) in
  Forall provider_only (operations (trace r.2)) ∧
  ∃ e, r.1 = Raise e.
Proof.
  intros r.
  assert (r = run (Args.Make metadata template None
                     "federated-trust-role-and-policy" "new_saml_provider"
                     "new_saml_role" "A role created by") w) as ->.
  { unfold r, script.
    pose proof (proj2 (proj2 (proj2 command_line_surface)) metadata template)
      as Hparse.
    destruct (Argparse.parse_args _ _) as [ns|]; [| done].
    cbn [fmap outcome_fmap] in Hparse. unfold run. congruence. }
  destruct (no_params_file_run
              (Args.Make metadata template None
                 "federated-trust-role-and-policy" "new_saml_provider"
                 "new_saml_role" "A role created by") w eq_refl)
    as (Hops & e & He & _).
  split; [exact Hops | by exists e].
Qed.

End More.


(** ** The extra theorems at work on the simulated account *)

Lemma uncaught_exception_ends_run_witness :
  result missing_file_args Account.fresh
    = Raise (Exn (OtherError "FileNotFoundError") "missing.json").
Proof.
  refine (proj1 (uncaught_exception_ends_run missing_file_args Account.fresh
                   (json_load_open "missing.json")
                   (Exn (OtherError "FileNotFoundError") "missing.json") _ _)).
  - at_index 3.
  - intros Hc. discriminate Hc.
Defined.

Lemma calls_use_arguments_witness :
  uses_arguments Account.args (look_up_role "new_saml_role").
Proof.
  refine (calls_use_arguments Account.args Account.role_deleted
            (look_up_role "new_saml_role")
            (Raise (Exn RoleNotFoundError "new_saml_role")) _).
  at_index 11.
Defined.

Lemma update_gets_what_create_got_witness :
  "federated-trust-role-and-policy" = "federated-trust-role-and-policy" ∧
  "role.yaml" = "role.yaml" ∧
  VList Account.bound_template = VList Account.bound_template.
Proof.
  refine (update_gets_what_create_got Account.args Account.provisioned
            "federated-trust-role-and-policy" "role.yaml"
            (VList Account.bound_template)
            (Raise (Exn StackExistsError "federated-trust-role-and-policy"))
            "federated-trust-role-and-policy" "role.yaml"
            (VList Account.bound_template)
            (Raise (Exn NoUpdateToPerformError "federated-trust-role-and-policy"))
            _ _).
  - at_index 7.
  - at_index 9.
Defined.

Lemma no_debug_record_witness : WARNING = INFO ∨ WARNING = WARNING.
Proof.
  refine (no_debug_record Account.args Account.role_deleted WARNING
            "Couldn't find role %s" [VStr "new_saml_role"] _).
  at_index 12.
Defined.

Lemma no_params_file_stops_run_witness :
  Forall provider_only (operations (events Account.no_file_args Account.fresh)).
Proof.
  refine (proj1 (no_params_file_stops_run Account.no_file_args Account.fresh _)).
  reflexivity.
Defined.

Lemma manifest_is_dumps_of_blob_witness :
  ∃ approles_blob,
    Account.last_text (events Account.args Account.fresh)
      = Json.dumps approles_blob.
Proof.
  destruct (manifest_is_dumps_of_blob Account.args Account.fresh
              (Account.last_text (events Account.args Account.fresh)))
    as (arn & role_data & trust & blob & _ & _ & _ & _ & Htext & _).
  - at_index 11.
  - exists blob. exact Htext.
Defined.


